(** * A shallow embedding of the Turing-machine engine

    The repository repeats one class, [TuringMachine], in several files.
    This development embeds the two variants that have a step limit, a
    [halted] flag and a transition trace:

    - [src/atc-6.py]: [reset], [step] (no tape extension), [is_accepted],
      [is_rejected], and the driver loop [run_tm_step] with its four-way
      verdict;
    - [src/atc-9.py] (the same class is in [src/atc-11.py]): [step] with
      the tape boundary extension in front of the lookup.

    Python values are modelled as follows.  A Python string is a sequence
    of characters; here it is the string of the bytes of its UTF-8
    encoding, so that a character is one byte that is not a continuation
    byte followed by the continuation bytes that belong to it.  A state
    name and a tape symbol are strings; the tape is a list of strings,
    one character per cell after [reset]; [head], [steps] and
    [max_steps] are unbounded integers ([Z]); the transition table is a
    dictionary with string keys ([gmap string _]) whose values are the
    three-element lists of the source; [reject_state] is a string or
    [None].  An [IndexError] raised by a list access is an explicit result. *)

From Stdlib Require Import ZArith Lia Ascii String.
From stdpp Require Import base option list strings gmap pretty.

Local Open Scope Z_scope.

(** ** Data *)

(** The fields of a [TuringMachine] object that [__init__] stores and never
    changes afterwards.  [states] and [tape_alphabet] are stored but never
    read by the engine. *)
Record machine := Machine {
  states : list string;
  tape_alphabet : list string;
  start_state : string;
  accept_state : string;
  reject_state : option string;
  transitions : gmap string (string * string * string);
  max_steps : Z
}.

(** The fields that [reset] and [step] assign. *)
Record run_state := RunState {
  tape : list string;
  head : Z;
  current_state : string;
  steps : Z;
  transition_trace : list string;
  halted : bool
}.

(** The outcome of a method that may raise [IndexError]. *)
Inductive result (A : Type) : Type :=
| Ok (a : A)
| IndexError.
Arguments Ok {A} a.
Arguments IndexError {A}.

(** The four strings [step] can return, kept structured; [render] gives
    the text of the f-string. *)
Inductive message : Type :=
| MsgStepLimit (limit : Z)
| MsgAlreadyHalted
| MsgNoTransition (state symbol : string)
| MsgStep (n : Z) (state : string) (hd : Z) (trimmed : string).

Definition blank : string := "_".

(** ** Python list and string primitives *)

(** [l[i]]: a negative index counts from the end; outside
    [-len(l) .. len(l)-1] Python raises [IndexError]. *)
Definition py_index {A} (l : list A) (i : Z) : option nat :=
  let n := Z.of_nat (length l) in
  if bool_decide (0 <= i < n) then Some (Z.to_nat i)
  else if bool_decide (- n <= i < 0) then Some (Z.to_nat (n + i))
  else None.

Definition py_get {A} (l : list A) (i : Z) : result A :=
  match py_index l i with
  | Some k => match l !! k with Some x => Ok x | None => IndexError end
  | None => IndexError
  end.

(** [l[i] = x]. *)
Definition py_set {A} (l : list A) (i : Z) (x : A) : result (list A) :=
  match py_index l i with
  | Some k => Ok (<[k := x]> l)
  | None => IndexError
  end.

(** A byte [10xxxxxx] of a UTF-8 encoding continues the character that
    an earlier byte began. *)
Definition is_continuation (c : ascii) : bool :=
  match c with
  | Ascii _ _ _ _ _ _ b6 b7 => b7 && negb b6
  end.

Fixpoint all_continuation (s : string) : bool :=
  match s with
  | EmptyString => true
  | String c rest => is_continuation c && all_continuation rest
  end.

(** A string that holds the bytes of at most one character: one byte and
    continuation bytes after it. *)
Definition char_shaped (cell : string) : bool :=
  match cell with
  | EmptyString => false
  | String _ rest => all_continuation rest
  end.

(** A string whose first byte begins a character. *)
Definition starts_a_character (cell : string) : bool :=
  match cell with
  | EmptyString => false
  | String c _ => negb (is_continuation c)
  end.

(** No continuation byte at the beginning: [s] is empty or begins with a
    character. *)
Definition clean_start (s : string) : bool :=
  match s with
  | EmptyString => true
  | String d _ => negb (is_continuation d)
  end.

(** [list(s)]: one one-character string per character of [s], not one
    per byte: a byte is put in front of the cell that follows it when
    that cell begins with a continuation byte, and opens a cell of its
    own otherwise.  [len(s)] is [length (py_list s)]. *)
Fixpoint py_list (s : string) : list string :=
  match s with
  | EmptyString => []
  | String c rest =>
      match py_list rest with
      | String d k :: more =>
          if is_continuation d then String c (String d k) :: more
          else String c EmptyString :: String d k :: more
      | cells => String c EmptyString :: cells
      end
  end.

(** ['' .join(l)]. *)
Definition py_join (l : list string) : string :=
  foldr String.append EmptyString l.

Fixpoint lstrip (c : ascii) (s : string) : string :=
  match s with
  | EmptyString => EmptyString
  | String a rest => if bool_decide (a = c) then lstrip c rest else s
  end.

Fixpoint rstrip (c : ascii) (s : string) : string :=
  match s with
  | EmptyString => EmptyString
  | String a rest =>
      match rstrip c rest with
      | EmptyString => if bool_decide (a = c) then EmptyString
                       else String a EmptyString
      | r => String a r
      end
  end.

(** [s.strip('_')]. *)
Definition strip_blank (s : string) : string :=
  rstrip "_"%char (lstrip "_"%char s).

(** The display form of the tape, [''.join(self.tape).strip('_')]. *)
Definition trimmed_tape (t : list string) : string :=
  strip_blank (py_join t).

(** The dictionary key [f"{state}_{symbol}"]. *)
Definition key (state symbol : string) : string :=
  state +:+ "_" +:+ symbol.

(** The trace entry
    [f"({state}, {symbol}) → ({next}, {write}, {direction})"]. *)
Definition trace_entry (state symbol next write direction : string) : string :=
  "(" +:+ state +:+ ", " +:+ symbol +:+ ") → (" +:+ next +:+ ", " +:+ write
      +:+ ", " +:+ direction +:+ ")".

Definition render (msg : message) : string :=
  match msg with
  | MsgStepLimit limit =>
      "Step limit (" +:+ pretty limit +:+ ") reached — forced halt."
  | MsgAlreadyHalted => "Machine already halted"
  | MsgNoTransition state symbol =>
      "No transition for (" +:+ state +:+ ", " +:+ symbol +:+ ") — halted."
  | MsgStep n state hd trimmed =>
      "Step " +:+ pretty n +:+ ": State=" +:+ state +:+ ", Head=" +:+ pretty hd
         +:+ ", Tape=" +:+ trimmed
  end.

(** ** The engine *)

(** [reset] (atc-6.py:15-21, atc-9.py:17-23). *)
Definition reset (m : machine) (input_string : string) : run_state :=
  {| tape := py_list input_string ++ replicate 50 blank;
     head := 0;
     current_state := start_state m;
     steps := 0;
     transition_trace := [];
     halted := false |}.

(** [self.halted = True]. *)
Definition halt (s : run_state) : run_state :=
  {| tape := tape s; head := head s; current_state := current_state s;
     steps := steps s; transition_trace := transition_trace s;
     halted := true |}.

(** [if direction == 'R': head += 1  elif direction == 'L': head -= 1]. *)
Definition move (direction : string) (hd : Z) : Z :=
  if bool_decide (direction = "R") then hd + 1
  else if bool_decide (direction = "L") then hd - 1
  else hd.

(** [state in [self.accept_state, self.reject_state]]. *)
Definition terminal (m : machine) (state : string) : bool :=
  bool_decide (state = accept_state m)
  || bool_decide (Some state = reject_state m).

(** The part of [step] from the read of [tape[head]] to the [return]
    (atc-6.py:31-54, and with the same text atc-9.py:39-62). *)
Definition transition_phase (m : machine) (s : run_state)
  : result (run_state * (bool * message)) :=
  match py_get (tape s) (head s) with
  | IndexError => IndexError
  | Ok symbol =>
      match transitions m !! key (current_state s) symbol with
      | None =>
          Ok (halt s, (false, MsgNoTransition (current_state s) symbol))
      | Some (next_state, write_symbol, direction) =>
          match py_set (tape s) (head s) write_symbol with
          | IndexError => IndexError
          | Ok tape' =>
              let head' := move direction (head s) in
              let steps' := steps s + 1 in
              let halted' := if terminal m next_state then true else halted s in
              Ok ({| tape := tape';
                     head := head';
                     current_state := next_state;
                     steps := steps';
                     transition_trace :=
                       transition_trace s ++
                       [trace_entry (current_state s) symbol
                                    next_state write_symbol direction];
                     halted := halted' |},
                  (negb halted',
                   MsgStep steps' next_state head' (trimmed_tape tape')))
          end
      end
  end.

(** The two guards every [step] starts with (atc-6.py:24-29,
    atc-9.py:26-31), in front of the rest of the method. *)
Definition guarded (m : machine) (s : run_state)
    (rest : run_state -> result (run_state * (bool * message)))
  : result (run_state * (bool * message)) :=
  if bool_decide (max_steps m <= steps s) then
    Ok (halt s, (false, MsgStepLimit (max_steps m)))
  else if halted s then
    Ok (s, (false, MsgAlreadyHalted))
  else rest s.

Module Atc6.
(** [TuringMachine.step] of atc-6.py: no tape extension. *)
Definition step (m : machine) (s : run_state)
  : result (run_state * (bool * message)) :=
  guarded m s (transition_phase m).
End Atc6.

Module Atc9.
(** atc-9.py:33-37, the tape boundary extension. *)
Definition extend_tape (s : run_state) : run_state :=
  let tape1 :=
    if bool_decide (Z.of_nat (length (tape s)) <= head s)
    then tape s ++ [blank] else tape s in
  if bool_decide (head s < 0) then
    {| tape := blank :: tape1; head := 0;
       current_state := current_state s; steps := steps s;
       transition_trace := transition_trace s; halted := halted s |}
  else
    {| tape := tape1; head := head s;
       current_state := current_state s; steps := steps s;
       transition_trace := transition_trace s; halted := halted s |}.

(** [TuringMachine.step] of atc-9.py (and atc-11.py). *)
Definition step (m : machine) (s : run_state)
  : result (run_state * (bool * message)) :=
  guarded m s (fun s0 => transition_phase m (extend_tape s0)).
End Atc9.

(** [is_accepted] and [is_rejected]. *)
Definition is_accepted (m : machine) (s : run_state) : bool :=
  bool_decide (current_state s = accept_state m).

Definition is_rejected (m : machine) (s : run_state) : bool :=
  bool_decide (Some (current_state s) = reject_state m).

(** ** Drivers *)

Abbreviation stepper :=
  (machine -> run_state -> result (run_state * (bool * message))).

(** [n] successive calls of [step()], with the pairs they return. *)
Fixpoint step_n (step : stepper) (n : nat) (m : machine) (s : run_state)
  : result (run_state * list (bool * message)) :=
  match n with
  | O => Ok (s, [])
  | S k =>
      match step m s with
      | IndexError => IndexError
      | Ok (s1, r) =>
          match step_n step k m s1 with
          | IndexError => IndexError
          | Ok (s2, rs) => Ok (s2, r :: rs)
          end
      end
  end.

(** The driver loop [run_tm_step] of atc-6.py:123-142, which re-schedules
    itself while [cont and not tm.halted]; the widget updates are left
    out and the messages written to the output area are the log.  [None]
    means that the fuel ran out.  The driver of atc-9.py:212-223 polls
    [step()] in the same way; it differs in what it displays (it shows
    [transition_trace[-1]] after each call and has a three-way label),
    which is not modelled. *)
Fixpoint run (step : stepper) (fuel : nat) (m : machine) (s : run_state)
    (log : list message) : option (result (run_state * list message)) :=
  match fuel with
  | O => None
  | S fuel' =>
      if halted s then Some (Ok (s, log))
      else
        match step m s with
        | IndexError => Some IndexError
        | Ok (s', (cont, msg)) =>
            if cont && negb (halted s')
            then run step fuel' m s' (log ++ [msg])
            else Some (Ok (s', log ++ [msg]))
        end
  end.

Inductive verdict : Type :=
| Accepted
| Rejected
| StepLimitExceeded
| StuckNoTransition.

(** The verdict the driver displays when the loop ends
    (atc-6.py:133-141). *)
Definition final_verdict (m : machine) (s : run_state) : verdict :=
  if is_accepted m s then Accepted
  else if is_rejected m s then Rejected
  else if bool_decide (max_steps m <= steps s) then StepLimitExceeded
  else StuckNoTransition.

(** The four verdicts as the specification words them, for a run that
    ended in state [s] when its last [step()] call returned [last]:
    accepted and rejected are read off the final state, the other two
    off the reason of the halt. *)
Definition spec_verdict_holds (m : machine) (s : run_state) (last_msg : message)
    (v : verdict) : bool :=
  match v with
  | Accepted => is_accepted m s
  | Rejected => is_rejected m s
  | StepLimitExceeded =>
      match last_msg with MsgStepLimit _ => true | _ => false end
      && negb (is_accepted m s) && negb (is_rejected m s)
  | StuckNoTransition =>
      match last_msg with MsgNoTransition _ _ => true | _ => false end
      && negb (is_accepted m s) && negb (is_rejected m s)
  end.

Definition exactly_one_verdict (m : machine) (s : run_state)
    (last_msg : message) : Prop :=
  exists v, spec_verdict_holds m s last_msg v = true
            /\ forall v', spec_verdict_holds m s last_msg v' = true -> v' = v.

(** ** Machine definitions *)

(** [example_tm] of atc.py (and [tm_def] of atc-1.py): the two-transition
    flip machine; it has no reject state. *)
Definition example_tm : machine :=
  {| states := ["q0"; "q1"; "halt"];
     tape_alphabet := ["0"; "1"; "_"];
     start_state := "q0";
     accept_state := "halt";
     reject_state := None;
     transitions := {[ "q0_0" := ("q1", "1", "R");
                       "q1__" := ("halt", "_", "N") ]};
     max_steps := 1000 |}.

(** [tm_examples["Flip 0 to 1"]] of atc-6.py. *)
Definition flip_0_to_1 : machine :=
  {| states := ["q0"; "q1"; "halt"; "reject"];
     tape_alphabet := ["0"; "1"; "_"];
     start_state := "q0";
     accept_state := "halt";
     reject_state := Some "reject";
     transitions := {[ "q0_0" := ("q1", "1", "R");
                       "q1__" := ("halt", "_", "N");
                       "q1_0" := ("reject", "0", "N") ]};
     max_steps := 1000 |}.

(** [tm_examples["Halting Problem"]] of atc-6.py, with a step limit. *)
Definition halting_problem (limit : Z) : machine :=
  {| states := ["simulate"; "halt"; "reject"];
     tape_alphabet := ["0"; "1"; "_"];
     start_state := "simulate";
     accept_state := "halt";
     reject_state := Some "reject";
     transitions := {[ "simulate_0" := ("simulate", "0", "R");
                       "simulate_1" := ("simulate", "1", "R");
                       "simulate__" := ("simulate", "_", "R") ]};
     max_steps := limit |}.

(** [tm_examples["Unary Increment (e.g. 111 → 1111)"]] of atc-9.py: the
    reject state is the accept state. *)
Definition unary_increment : machine :=
  {| states := ["q0"; "halt"];
     tape_alphabet := ["1"; "_"];
     start_state := "q0";
     accept_state := "halt";
     reject_state := Some "halt";
     transitions := {[ "q0_1" := ("q0", "1", "R");
                       "q0__" := ("halt", "1", "N") ]};
     max_steps := 1000 |}.

(** The one-transition machine of the specification's third scenario:
    [{(loop,'0') -> (loop,'0',R)}], start [loop], accept [halt]. *)
Definition loop_machine (limit : Z) : machine :=
  {| states := ["loop"; "halt"];
     tape_alphabet := ["0"; "_"];
     start_state := "loop";
     accept_state := "halt";
     reject_state := None;
     transitions := {[ "loop_0" := ("loop", "0", "R") ]};
     max_steps := limit |}.


(** A machine that steps left off cell 0 into state [q1]. *)
Definition left_mover (accept : string) : machine :=
  {| states := ["q0"; "q1"; accept];
     tape_alphabet := ["0"; "_"];
     start_state := "q0";
     accept_state := accept;
     reject_state := None;
     transitions := {[ "q0_0" := ("q1", "0", "L") ]};
     max_steps := 1000 |}.

(** The state [left_mover] is in after its first step on input [0]. *)
Definition off_the_left_end : run_state :=
  {| tape := "0" :: replicate 50 blank;
     head := -1;
     current_state := "q1";
     steps := 1;
     transition_trace := ["(q0, 0) → (q1, 0, L)"];
     halted := false |}.

(** ** Invariants and the cases of a step, as propositions *)

(** The head is at most one cell outside the materialized tape. *)
Definition head_in_window (s : run_state) : Prop :=
  -1 <= head s <= Z.of_nat (length (tape s)).

(** One trace entry per counted step. *)
Definition steps_accounted (s : run_state) : Prop :=
  steps s = Z.of_nat (length (transition_trace s)).

(** Cells by logical offset.  [origin] is the index that the cell the run
    started on has in the materialized tape, that is, the number of cells
    prepended so far; the cell at offset [p] is at index [p + origin]. *)
Definition logical_cell (origin : nat) (t : list string) (p : Z)
  : option string :=
  if bool_decide (0 <= p + Z.of_nat origin)
  then t !! Z.to_nat (p + Z.of_nat origin) else None.

(** The number of cells the boundary extension prepends in state [s]. *)
Definition left_growth (s : run_state) : nat :=
  if bool_decide (head s < 0) then 1%nat else 0%nat.

(** The four ways through [Atc9.step], as a relation between the state
    before, the state after and the returned pair. *)
Inductive step_case (m : machine) (s : run_state)
  : run_state -> bool * message -> Prop :=
| case_limit :
    max_steps m <= steps s ->
    step_case m s (halt s) (false, MsgStepLimit (max_steps m))
| case_halted :
    steps s < max_steps m ->
    halted s = true ->
    step_case m s s (false, MsgAlreadyHalted)
| case_miss symbol :
    steps s < max_steps m ->
    halted s = false ->
    tape (Atc9.extend_tape s) !! Z.to_nat (head (Atc9.extend_tape s))
      = Some symbol ->
    transitions m !! key (current_state s) symbol = None ->
    step_case m s (halt (Atc9.extend_tape s))
              (false, MsgNoTransition (current_state s) symbol)
| case_hit symbol next_state write_symbol direction :
    steps s < max_steps m ->
    halted s = false ->
    tape (Atc9.extend_tape s) !! Z.to_nat (head (Atc9.extend_tape s))
      = Some symbol ->
    transitions m !! key (current_state s) symbol
      = Some (next_state, write_symbol, direction) ->
    step_case m s
      {| tape := <[Z.to_nat (head (Atc9.extend_tape s)) := write_symbol]>
                   (tape (Atc9.extend_tape s));
         head := move direction (head (Atc9.extend_tape s));
         current_state := next_state;
         steps := steps s + 1;
         transition_trace :=
           transition_trace s ++
           [trace_entry (current_state s) symbol
                        next_state write_symbol direction];
         halted := terminal m next_state |}
      (negb (terminal m next_state),
       MsgStep (steps s + 1) next_state
               (move direction (head (Atc9.extend_tape s)))
               (trimmed_tape
                  (<[Z.to_nat (head (Atc9.extend_tape s)) := write_symbol]>
                     (tape (Atc9.extend_tape s))))).

(** ** The display of atc-9.py *)

(** What [update_tape] draws for one cell: the left edge of its rectangle
    (the other coordinates are this one plus constants), the fill colour,
    the symbol written in it, and the state name written under it. *)
Record cell := Cell {
  cell_x : Z;
  cell_fill : string;
  cell_symbol : string;
  cell_state : option string
}.

(** The body of the loop of [update_tape] (atc-9.py:229-236) for index
    [i]. *)
Definition draw_cell (s : run_state) (i : Z) : result cell :=
  let x_start := 10 in
  let cell_size := 30 in
  let symbol :=
    if bool_decide (i < 0) || bool_decide (Z.of_nat (length (tape s)) <= i)
    then Ok blank else py_get (tape s) i in
  match symbol with
  | IndexError => IndexError
  | Ok symbol =>
      Ok {| cell_x := x_start + (i - head s + 10) * cell_size;
            cell_fill := if bool_decide (i = head s) then "yellow" else "white";
            cell_symbol := symbol;
            cell_state := if bool_decide (i = head s)
                          then Some (current_state s) else None |}
  end.

Fixpoint draw_cells (s : run_state) (indices : list Z) : result (list cell) :=
  match indices with
  | [] => Ok []
  | i :: rest =>
      match draw_cell s i with
      | IndexError => IndexError
      | Ok c =>
          match draw_cells s rest with
          | IndexError => IndexError
          | Ok cs => Ok (c :: cs)
          end
      end
  end.

(** [update_tape] (atc-9.py:225-236): the canvas is cleared and the cells
    [range(tm.head - 10, tm.head + 11)] are drawn. *)
Definition update_tape (s : run_state) : result (list cell) :=
  draw_cells s (seqZ (head s - 10) ((head s + 11) - (head s - 10))).

(** The widgets the driver writes to: the pieces inserted into the two
    text areas, in order, the text of the verdict label, and the cells on
    the canvas. *)
Record display := Display {
  output_area : list string;
  transition_area : list string;
  verdict_label : string;
  tape_canvas : list cell
}.

Definition newline : string := String (ascii_of_nat 10) EmptyString.

(** How a chain of [run_tm_step] callbacks ends: it returns without
    re-scheduling itself, or [step()] raises, or [transition_trace[-1]]
    raises after [step()] has returned. *)
Inductive gui_end : Type :=
| Finished (s : run_state) (d : display)
| RaisedInStep (d : display)
| RaisedAtTrace (s : run_state) (d : display)
| RaisedInUpdate (s : run_state) (d : display).

Module Atc9Gui.
(** The label text chosen at atc-9.py:221. *)
Definition verdict_text (m : machine) (s : run_state) : string :=
  if is_accepted m s then "✅ Accepted"
  else if is_rejected m s then "❌ Rejected"
  else "⚠️ Halted".

(** [run_tm_step] (atc-9.py:212-223; atc-11.py:172-182 is the same text),
    with [root.after(150, run_tm_step)] as the recursive call.  The call
    [open_automaton_gui()] that atc-9.py makes after it has set the
    verdict is not modelled.  [None] means that the fuel ran out. *)
Fixpoint run_tm_step (fuel : nat) (m : machine) (s : run_state) (d : display)
  : option gui_end :=
  match fuel with
  | O => None
  | S fuel' =>
      if halted s then Some (Finished s d)
      else
        match Atc9.step m s with
        | IndexError => Some (RaisedInStep d)
        | Ok (s', (cont, msg)) =>
            let d1 :=
              {| output_area := output_area d ++ [render msg +:+ newline];
                 transition_area := transition_area d;
                 verdict_label := verdict_label d;
                 tape_canvas := tape_canvas d |} in
            match py_get (transition_trace s') (-1) with
            | IndexError => Some (RaisedAtTrace s' d1)
            | Ok entry =>
                let d2 :=
                  {| output_area := output_area d1;
                     transition_area :=
                       transition_area d1 ++ [entry +:+ newline];
                     verdict_label := verdict_label d1;
                     tape_canvas := tape_canvas d1 |} in
                match update_tape s' with
                | IndexError => Some (RaisedInUpdate s' d2)
                | Ok cells =>
                    let d3 :=
                      {| output_area := output_area d2;
                         transition_area := transition_area d2;
                         verdict_label := verdict_label d2;
                         tape_canvas := cells |} in
                    if cont && negb (halted s')
                    then run_tm_step fuel' m s' d3
                    else
                      Some (Finished s'
                              {| output_area := output_area d3;
                                 transition_area := transition_area d3;
                                 verdict_label := verdict_text m s';
                                 tape_canvas := tape_canvas d3 |})
                end
            end
        end
  end.

(** [simulate_tm_gui] (atc-9.py:193-210) for a machine definition and the
    text of the entry field: a fresh engine, cleared text areas and
    label, the tape drawn, and the first callback scheduled. *)
Definition simulate_tm_gui (fuel : nat) (m : machine) (input : string)
  : option gui_end :=
  let s := reset m input in
  match update_tape s with
  | IndexError =>
      Some (RaisedInUpdate s {| output_area := []; transition_area := [];
                                verdict_label := ""; tape_canvas := [] |})
  | Ok cells =>
      run_tm_step fuel m s
        {| output_area := []; transition_area := [];
           verdict_label := ""; tape_canvas := cells |}
  end.
End Atc9Gui.

(** [tm_examples["Even number of 1s"]] of atc-9.py, with the step limit
    that [simulate_tm_gui] passes. *)
Definition even_number_of_1s : machine :=
  {| states := ["even"; "odd"; "halt"; "reject"];
     tape_alphabet := ["1"; "_"];
     start_state := "even";
     accept_state := "halt";
     reject_state := Some "reject";
     transitions := {[ "even_1" := ("odd", "1", "R");
                       "odd_1" := ("even", "1", "R");
                       "even__" := ("halt", "_", "N");
                       "odd__" := ("reject", "_", "N") ]};
     max_steps := 1000 |}.

(** [tm_examples["Binary Palindrome Checker (e.g. 10101)"]] of atc-9.py,
    with the step limit that [simulate_tm_gui] passes. *)
Definition binary_palindrome_checker : machine :=
  {| states := ["q0"; "q1"; "q2"; "q3"; "q4"; "q5"; "halt"; "reject"];
     tape_alphabet := ["0"; "1"; "X"; "_"];
     start_state := "q0";
     accept_state := "halt";
     reject_state := Some "reject";
     transitions :=
       list_to_map
         [ ("q0_0", ("q1", "X", "R"));
           ("q0_1", ("q2", "X", "R"));
           ("q0_X", ("halt", "X", "N"));
           ("q0__", ("halt", "_", "N"));
           ("q1_0", ("q1", "0", "R"));
           ("q1_1", ("q1", "1", "R"));
           ("q1_X", ("q1", "X", "R"));
           ("q1__", ("q3", "_", "L"));
           ("q2_0", ("q2", "0", "R"));
           ("q2_1", ("q2", "1", "R"));
           ("q2_X", ("q2", "X", "R"));
           ("q2__", ("q4", "_", "L"));
           ("q3_0", ("q5", "X", "L"));
           ("q4_1", ("q5", "X", "L"));
           ("q3_X", ("halt", "X", "N"));
           ("q4_X", ("halt", "X", "N"));
           ("q5_0", ("q5", "0", "L"));
           ("q5_1", ("q5", "1", "L"));
           ("q5_X", ("q0", "X", "R")) ];
     max_steps := 1000 |}.

(** The string of [n] ones. *)
Fixpoint ones (n : nat) : string :=
  match n with
  | O => EmptyString
  | S k => String "1" (ones k)
  end.

(** * Theorems *)

Example render_demo :
  render (MsgStep 2 "halt" (-1) "1") = "Step 2: State=halt, Head=-1, Tape=1".
Proof. vm_compute. reflexivity. Qed.

Example strip_demo :
  strip_blank "__a_b__" = "a_b" /\ strip_blank "___" = "" /\ strip_blank "" = "".
Proof. vm_compute. auto. Qed.

(** ** Python primitives *)

Lemma py_index_in_bounds {A} (l : list A) (i : Z) :
  0 <= i < Z.of_nat (length l) -> py_index l i = Some (Z.to_nat i).
Proof.
  intros Hi. unfold py_index. cbv zeta.
  rewrite bool_decide_eq_true_2 by exact Hi. reflexivity.
Qed.

Lemma py_get_in_bounds {A} (l : list A) (i : Z) :
  0 <= i < Z.of_nat (length l) ->
  exists x, py_get l i = Ok x /\ l !! Z.to_nat i = Some x.
Proof.
  intros Hi. unfold py_get. rewrite py_index_in_bounds by exact Hi.
  destruct (lookup_lt_is_Some_2 l (Z.to_nat i)) as [x Hx]; [lia|].
  exists x. rewrite Hx. split; reflexivity.
Qed.

Lemma py_set_in_bounds {A} (l : list A) (i : Z) (x : A) :
  0 <= i < Z.of_nat (length l) ->
  py_set l i x = Ok (<[Z.to_nat i := x]> l).
Proof.
  intros Hi. unfold py_set. rewrite py_index_in_bounds by exact Hi.
  reflexivity.
Qed.

(** ** Characters and bytes *)

Lemma py_list_unfold (c : ascii) (rest : string) :
  py_list (String c rest)
  = match py_list rest with
    | String d k :: more =>
        if is_continuation d then String c (String d k) :: more
        else String c EmptyString :: String d k :: more
    | cells => String c EmptyString :: cells
    end.
Proof. reflexivity. Qed.

Lemma py_join_cons (x : string) (l : list string) :
  py_join (x :: l) = x +:+ py_join l.
Proof. reflexivity. Qed.

Lemma py_join_py_list (s : string) : py_join (py_list s) = s.
Proof.
  induction s as [|c s IH]; [reflexivity|].
  rewrite py_list_unfold.
  assert (Hgoal : String c (py_join (py_list s)) = String c s)
    by (rewrite IH; reflexivity).
  destruct (py_list s) as [|[|d k] more]; try exact Hgoal.
  destruct (is_continuation d); exact Hgoal.
Qed.

(** The first cell of [list(s)] begins with the first byte of [s]. *)
Lemma py_list_head (d : ascii) (r : string) :
  exists k more, py_list (String d r) = String d k :: more.
Proof.
  rewrite py_list_unfold.
  destruct (py_list r) as [|[|e k] more]; eauto.
  destruct (is_continuation e); eauto.
Qed.

Lemma py_list_cons (c : ascii) (rest : string) :
  clean_start rest = true ->
  py_list (String c rest) = String c EmptyString :: py_list rest.
Proof.
  intros Hclean. rewrite py_list_unfold.
  destruct rest as [|d r]; [reflexivity|].
  destruct (py_list_head d r) as (k & more & ->).
  cbn [clean_start] in Hclean.
  destruct (is_continuation d); [discriminate|reflexivity].
Qed.

Lemma py_list_app (a b : string) :
  clean_start b = true -> py_list (a +:+ b) = py_list a ++ py_list b.
Proof.
  intros Hclean. induction a as [|c a IH]; [reflexivity|].
  change (String c a +:+ b) with (String c (a +:+ b)).
  rewrite !py_list_unfold, IH.
  destruct (py_list a) as [|[|d k] more] eqn:Ha.
  - cbn [app]. destruct b as [|e r]; [reflexivity|].
    destruct (py_list_head e r) as (k & more & ->).
    cbn [clean_start] in Hclean.
    destruct (is_continuation e); [discriminate|reflexivity].
  - reflexivity.
  - cbn [app]. destruct (is_continuation d); reflexivity.
Qed.

(** Every cell of [list(s)] is one byte and the continuation bytes after
    it, and every cell but the first begins a character: the cells are
    the characters of [s]. *)
Lemma py_list_cells (s : string) :
  Forall (fun cell => char_shaped cell = true) (py_list s)
  /\ Forall (fun cell => starts_a_character cell = true) (tail (py_list s)).
Proof.
  induction s as [|c s [IHshape IHstart]]; [split; constructor|].
  rewrite py_list_unfold.
  destruct (py_list s) as [|[|d k] more].
  - split; repeat constructor.
  - inversion IHshape; discriminate.
  - cbn [tail] in IHstart.
    destruct (is_continuation d) eqn:Hd.
    + split; [|exact IHstart].
      inversion IHshape as [|? ? Hcell Hmore]; subst.
      constructor; [|exact Hmore].
      cbn [char_shaped all_continuation] in *. rewrite Hd, Hcell. reflexivity.
    + split.
      * constructor; [reflexivity|exact IHshape].
      * cbn [tail]. constructor; [|exact IHstart].
        cbn [starts_a_character]. rewrite Hd. reflexivity.
Qed.

Lemma string_length_app (a b : string) :
  String.length (a +:+ b) = (String.length a + String.length b)%nat.
Proof.
  induction a as [|c a IH]; [reflexivity|].
  change (S (String.length (a +:+ b))
          = S (String.length a + String.length b)).
  rewrite IH. reflexivity.
Qed.

(** Where every character is a single byte, as over the alphabets of the
    example machines, [len(s)] is the number of bytes. *)
Lemma py_list_length (s : string) :
  Forall (fun cell => String.length cell = 1%nat) (py_list s) ->
  length (py_list s) = String.length s.
Proof.
  intros Hcells.
  rewrite <- (py_join_py_list s) at 2.
  induction Hcells as [|x l Hx _ IH]; [reflexivity|].
  rewrite py_join_cons, string_length_app, Hx, <- IH. reflexivity.
Qed.

Lemma move_within_one (direction : string) (hd : Z) :
  hd - 1 <= move direction hd <= hd + 1.
Proof. unfold move. repeat case_bool_decide; lia. Qed.

(** ** The guards *)

Lemma halt_of_halted (s : run_state) : halted s = true -> halt s = s.
Proof. destruct s; simpl; intros ->; reflexivity. Qed.


Lemma step_when_halted (m : machine) (s : run_state) :
  halted s = true ->
  exists msg, Atc9.step m s = Ok (s, (false, msg)).
Proof.
  intros H. unfold Atc9.step, guarded. case_bool_decide.
  - rewrite (halt_of_halted s H). eauto.
  - rewrite H. eauto.
Qed.

(** ** The boundary extension *)

Lemma extend_tape_in_bounds (s : run_state) :
  head_in_window s ->
  0 <= head (Atc9.extend_tape s)
    < Z.of_nat (length (tape (Atc9.extend_tape s))).
Proof.
  unfold head_in_window, Atc9.extend_tape. intros [Hlo Hhi].
  repeat case_bool_decide; simpl; rewrite ?length_app; simpl; lia.
Qed.

Lemma extend_tape_frame (s : run_state) :
  current_state (Atc9.extend_tape s) = current_state s
  /\ steps (Atc9.extend_tape s) = steps s
  /\ transition_trace (Atc9.extend_tape s) = transition_trace s
  /\ halted (Atc9.extend_tape s) = halted s.
Proof. unfold Atc9.extend_tape. case_bool_decide; simpl; auto. Qed.

(** A call of [step] returns, through one of the four cases, whenever the
    extension leaves the head on a cell. *)
Lemma step_spec_bounds (m : machine) (s : run_state) :
  0 <= head (Atc9.extend_tape s)
    < Z.of_nat (length (tape (Atc9.extend_tape s))) ->
  exists s' r, Atc9.step m s = Ok (s', r) /\ step_case m s s' r.
Proof.
  intros Hb. unfold Atc9.step, guarded.
  case_bool_decide as Hlim.
  { eexists _, _. split; [reflexivity|]. by constructor. }
  destruct (halted s) eqn:Hh.
  { eexists _, _. split; [reflexivity|]. constructor; [lia|done]. }
  pose proof (extend_tape_frame s) as (Hc & Hs & Ht & Hhe).
  unfold transition_phase.
  destruct (py_get_in_bounds _ _ Hb) as (symbol & -> & Hsym).
  rewrite Hc.
  destruct (transitions m !! key (current_state s) symbol)
    as [[[next write] dir]|] eqn:Hlook.
  - rewrite (py_set_in_bounds _ _ write Hb). rewrite Hs, Ht, Hhe, Hh.
    eexists _, _. split.
    2:{ eapply (case_hit m s symbol next write dir); [lia|done..]. }
    cbv zeta. destruct (terminal m next); reflexivity.
  - eexists _, _. split; [reflexivity|].
    apply case_miss; [lia|done..].
Qed.

(** In particular on every state whose head is in the window. *)
Lemma step_spec (m : machine) (s : run_state) :
  head_in_window s ->
  exists s' r, Atc9.step m s = Ok (s', r) /\ step_case m s s' r.
Proof. intros Hw. apply step_spec_bounds, extend_tape_in_bounds, Hw. Qed.

(** The extension keeps every cell, [left_growth] places further on. *)
Lemma extend_tape_keeps (s : run_state) (i : nat) (x : string) :
  tape s !! i = Some x ->
  tape (Atc9.extend_tape s) !! (i + left_growth s)%nat = Some x.
Proof.
  intros Hx. unfold Atc9.extend_tape, left_growth.
  repeat case_bool_decide; simpl;
    rewrite ?Nat.add_1_r, ?Nat.add_0_r; simpl;
    try exact Hx; by apply lookup_app_l_Some.
Qed.

Lemma extend_tape_length (s : run_state) :
  (length (tape s) <= length (tape (Atc9.extend_tape s))
   <= S (length (tape s)))%nat.
Proof.
  unfold Atc9.extend_tape.
  repeat case_bool_decide; simpl; rewrite ?length_app; simpl; lia.
Qed.

Lemma extend_tape_head (s : run_state) :
  head (Atc9.extend_tape s) = if bool_decide (head s < 0) then 0 else head s.
Proof. unfold Atc9.extend_tape. case_bool_decide; reflexivity. Qed.

Lemma logical_cell_shift (origin g : nat) (t t' : list string) :
  (forall i x, t !! i = Some x -> t' !! (i + g)%nat = Some x) ->
  forall p x, logical_cell origin t p = Some x ->
              logical_cell (origin + g) t' p = Some x.
Proof.
  intros Hkeep p x. unfold logical_cell.
  case_bool_decide as Hp; [|discriminate]. intros Hx.
  rewrite bool_decide_eq_true_2 by lia.
  replace (Z.to_nat (p + Z.of_nat (origin + g)))
    with (Z.to_nat (p + Z.of_nat origin) + g)%nat by lia.
  by apply Hkeep.
Qed.

(** ** What a step preserves *)

Lemma halt_fields (s : run_state) :
  tape (halt s) = tape s /\ head (halt s) = head s
  /\ current_state (halt s) = current_state s /\ steps (halt s) = steps s
  /\ transition_trace (halt s) = transition_trace s /\ halted (halt s) = true.
Proof. repeat split. Qed.

Lemma step_case_window (m : machine) (s s' : run_state) (r : bool * message) :
  head_in_window s -> step_case m s s' r -> head_in_window s'.
Proof.
  intros Hw Hc. pose proof (extend_tape_in_bounds s Hw) as Hb.
  destruct Hc; unfold head_in_window in *; simpl.
  - exact Hw.
  - exact Hw.
  - lia.
  - rewrite length_insert.
    pose proof (move_within_one direction (head (Atc9.extend_tape s))). lia.
Qed.

Lemma step_case_accounted (m : machine) (s s' : run_state)
    (r : bool * message) :
  steps_accounted s -> step_case m s s' r -> steps_accounted s'.
Proof.
  intros Ha Hc. pose proof (extend_tape_frame s) as (_ & Hs & Ht & _).
  destruct Hc; unfold steps_accounted in *; simpl.
  - exact Ha.
  - exact Ha.
  - rewrite Hs, Ht. exact Ha.
  - rewrite length_app. simpl. lia.
Qed.

Lemma step_case_bounded (m : machine) (s s' : run_state)
    (r : bool * message) :
  0 <= steps s <= max_steps m -> step_case m s s' r ->
  0 <= steps s' <= max_steps m.
Proof.
  intros Hb Hc. pose proof (extend_tape_frame s) as (_ & Hs & _ & _).
  destruct Hc; simpl; lia.
Qed.

(** A call that makes the driver stop leaves the engine halted. *)
Lemma step_case_stops (m : machine) (s s' : run_state) (cont : bool)
    (msg : message) :
  halted s = false -> step_case m s s' (cont, msg) ->
  cont && negb (halted s') = false -> halted s' = true.
Proof.
  intros Hh Hc Hstop. inversion Hc; subst; simpl in *; try congruence.
  destruct (terminal m next_state); simpl in *; congruence.
Qed.

(** A call that lets the driver go on has counted one more step. *)
Lemma step_case_continues (m : machine) (s s' : run_state) (cont : bool)
    (msg : message) :
  step_case m s s' (cont, msg) -> cont = true ->
  steps s < max_steps m /\ steps s' = steps s + 1 /\ halted s' = false.
Proof.
  intros Hc ->. inversion Hc; subst; simpl.
  destruct (terminal m next_state); simpl in *; [congruence|]. lia.
Qed.

Lemma run_unfold (step : stepper) (fuel : nat) (m : machine) (s : run_state)
    (log : list message) :
  run step (S fuel) m s log =
  if halted s then Some (Ok (s, log))
  else match step m s with
       | IndexError => Some IndexError
       | Ok (s', (cont, msg)) =>
           if cont && negb (halted s')
           then run step fuel m s' (log ++ [msg])
           else Some (Ok (s', log ++ [msg]))
       end.
Proof. reflexivity. Qed.

Section Invariant.
Variable m : machine.
Variable P : run_state -> Prop.
Hypothesis P_step :
  forall s s' r, head_in_window s -> P s -> step_case m s s' r -> P s'.

(** Any number of calls from a good state returns, in a good state. *)
Lemma step_n_invariant (n : nat) :
  forall s, head_in_window s -> P s ->
  exists s' rs, step_n Atc9.step n m s = Ok (s', rs)
                /\ head_in_window s' /\ P s' /\ length rs = n.
Proof.
  induction n as [|n IH]; intros s Hw Hp; simpl.
  - eexists _, _. eauto.
  - destruct (step_spec m s Hw) as (s1 & r & -> & Hc).
    destruct (IH s1) as (s2 & rs & -> & Hw2 & Hp2 & Hlen).
    + eapply step_case_window; eauto.
    + eapply P_step; eauto.
    + exists s2, (r :: rs). simpl. rewrite Hlen. auto.
Qed.

(** The driver loop ends within [max_steps - steps + 1] calls, and its
    last call is a call from a good, running state that halted it. *)
Lemma run_spec (n : nat) :
  forall s log,
    head_in_window s -> P s -> halted s = false ->
    max_steps m - steps s <= Z.of_nat n ->
    exists s0 s' cont msg log0,
      run Atc9.step (S n) m s log = Some (Ok (s', log ++ log0 ++ [msg]))
      /\ head_in_window s0 /\ P s0 /\ halted s0 = false
      /\ step_case m s0 s' (cont, msg)
      /\ halted s' = true /\ head_in_window s' /\ P s'.
Proof.
  induction n as [|n IH]; intros s log Hw Hp Hh Hfuel;
    destruct (step_spec m s Hw) as (s1 & [cont msg] & Hstep & Hc);
    rewrite run_unfold, Hh, Hstep;
    destruct (cont && negb (halted s1)) eqn:Hgo.
  - apply andb_true_iff in Hgo as [-> _].
    destruct (step_case_continues _ _ _ _ _ Hc eq_refl) as (Hlt & _). lia.
  - exists s, s1, cont, msg, []. simpl.
    split; [reflexivity|].
    eauto 10 using step_case_stops, step_case_window.
  - apply andb_true_iff in Hgo as [-> _].
    destruct (step_case_continues _ _ _ _ _ Hc eq_refl) as (Hlt & Hs1 & Hh1).
    destruct (IH s1 (log ++ [msg])) as (s0 & s' & c & msg' & log0 & Hrun & H).
    + eapply step_case_window; eauto.
    + eapply P_step; eauto.
    + exact Hh1.
    + lia.
    + exists s0, s', c, msg', (msg :: log0).
      split; [|exact H]. rewrite Hrun. rewrite <- app_assoc. reflexivity.
  - exists s, s1, cont, msg, []. simpl.
    split; [reflexivity|].
    eauto 10 using step_case_stops, step_case_window.
Qed.
End Invariant.

Lemma reset_window (m : machine) (input : string) :
  head_in_window (reset m input).
Proof. unfold head_in_window. simpl. lia. Qed.

(** ** Halted states *)

(** Claim C1.  Once [halted] is true, any number [n] of further [step()]
    calls return, each with [continues = False], and leave
    [current_state], [head], [tape] and [steps] (and the flag itself) as
    they were. *)
Theorem halted_is_terminal (m : machine) (s : run_state) (n : nat) :
  halted s = true ->
  exists s' rs,
    step_n Atc9.step n m s = Ok (s', rs)
    /\ length rs = n
    /\ Forall (fun r => fst r = false) rs
    /\ current_state s' = current_state s
    /\ head s' = head s
    /\ tape s' = tape s
    /\ steps s' = steps s
    /\ halted s' = true.
Proof.
  intros Hh. induction n as [|n IH]; simpl.
  - exists s, []. repeat split; auto.
  - destruct (step_when_halted m s Hh) as (msg & ->).
    destruct IH as (s' & rs & -> & Hlen & Hall & Hrest).
    exists s', ((false, msg) :: rs). simpl.
    repeat split; try tauto; [congruence | by constructor].
Qed.

Lemma halted_is_terminal_witness :
  exists s' rs,
    step_n Atc9.step 3 unary_increment (halt (reset unary_increment "1"))
      = Ok (s', rs)
    /\ length rs = 3%nat
    /\ Forall (fun r => fst r = false) rs
    /\ current_state s' = "q0"
    /\ head s' = 0
    /\ tape s' = "1" :: replicate 50 blank
    /\ steps s' = 0
    /\ halted s' = true.
Proof.
  apply (halted_is_terminal unary_increment
           (halt (reset unary_increment "1")) 3).
  reflexivity.
Defined.

(** ** Reset *)

(** Claim C7.  [reset] is a total function of the input string.  It
    leaves the tape holding [list(input_string)] followed by 50 blanks:
    the cells in front are the characters of the input, in order (joined
    they give the input back, each is one byte with the continuation
    bytes that follow it, and each after the first begins a character),
    so the tape has [len(input_string) + 50] cells, counted in characters
    and not in bytes: 52 for a two-character input whose first character
    takes two bytes.  The head is on cell 0, the state is the start
    state, no step is counted, the trace is empty and the flag is down.
    For every input there is a cell under the head; it holds the first
    character of a non-empty input and a blank for the empty input. *)
Theorem reset_establishes (m : machine) (input : string) :
  tape (reset m input) = py_list input ++ replicate 50 blank
  /\ py_join (py_list input) = input
  /\ Forall (fun cell => char_shaped cell = true) (py_list input)
  /\ Forall (fun cell => starts_a_character cell = true)
            (tail (py_list input))
  /\ length (tape (reset m input)) = (length (py_list input) + 50)%nat
  /\ drop (length (py_list input)) (tape (reset m input))
     = replicate 50 blank
  /\ length (tape (reset m "é1")) = 52%nat
  /\ head (reset m input) = 0
  /\ current_state (reset m input) = start_state m
  /\ steps (reset m input) = 0
  /\ halted (reset m input) = false
  /\ transition_trace (reset m input) = []
  /\ (exists symbol,
        py_get (tape (reset m input)) (head (reset m input)) = Ok symbol
        /\ (symbol = blank \/ char_shaped symbol = true)
        /\ (forall c rest, input = String c rest ->
              exists k, symbol = String c k)
        /\ (input = "" -> symbol = blank)).
Proof.
  assert (Hlen : length (tape (reset m input))
                 = (length (py_list input) + 50)%nat).
  { unfold reset. cbn [tape].
    rewrite length_app, length_replicate. reflexivity. }
  destruct (py_list_cells input) as [Hshape Hstart].
  split; [reflexivity|].
  split; [apply py_join_py_list|].
  split; [exact Hshape|].
  split; [exact Hstart|].
  split; [exact Hlen|].
  split; [unfold reset; cbn [tape]; apply drop_app_length|].
  split; [reflexivity|].
  do 5 (split; [reflexivity|]).
  destruct (py_get_in_bounds (tape (reset m input)) 0) as (x & Hx & Hcell).
  { rewrite Hlen. lia. }
  exists x. split; [exact Hx|].
  unfold reset in Hcell. cbn [tape] in Hcell.
  change (Z.to_nat 0) with 0%nat in Hcell.
  destruct input as [|c rest].
  - cbn in Hcell. injection Hcell as <-.
    split; [left; reflexivity|]. split; [discriminate|reflexivity].
  - destruct (py_list_head c rest) as (k & more & Hhead).
    rewrite Hhead in Hcell, Hshape. cbn in Hcell. injection Hcell as <-.
    split; [right; inversion Hshape; assumption|].
    split; [|discriminate].
    intros c' rest' Heq. injection Heq as <- <-. exists k. reflexivity.
Qed.

(** ** Bounds *)

(** Claim C9.  From [reset], any number [n] of [step()] calls return
    without an [IndexError]; the head of every state reached is at most
    one cell outside the tape (a step moves it by at most one cell), and
    after the boundary extension it indexes a cell, so the read and the
    write of the transition phase are in bounds. *)
Theorem tape_access_in_bounds (m : machine) (input : string) (n : nat) :
  exists s rs,
    step_n Atc9.step n m (reset m input) = Ok (s, rs)
    /\ -1 <= head s <= Z.of_nat (length (tape s))
    /\ 0 <= head (Atc9.extend_tape s)
         < Z.of_nat (length (tape (Atc9.extend_tape s)))
    /\ (exists symbol,
          py_get (tape (Atc9.extend_tape s)) (head (Atc9.extend_tape s))
            = Ok symbol)
    /\ (forall write_symbol, exists tape',
          py_set (tape (Atc9.extend_tape s)) (head (Atc9.extend_tape s))
                 write_symbol = Ok tape')
    /\ (forall direction hd, hd - 1 <= move direction hd <= hd + 1).
Proof.
  destruct (step_n_invariant m (fun _ => True) (fun _ _ _ _ _ _ => I) n
              (reset m input) (reset_window m input) I)
    as (s & rs & Hrun & Hw & _ & _).
  pose proof (extend_tape_in_bounds s Hw) as Hb.
  exists s, rs. split; [exact Hrun|]. split; [exact Hw|]. split; [exact Hb|].
  split; [|split].
  - destruct (py_get_in_bounds _ _ Hb) as (x & Hx & _). eauto.
  - intros w. rewrite (py_set_in_bounds _ _ w Hb). eauto.
  - apply move_within_one.
Qed.

(** ** Step accounting *)

(** Claim C3.  For a machine whose step limit is not negative: the driver
    loop started from [reset] ends within [max_steps + 1] calls, and in
    its final state [steps] is the number of trace entries and is at most
    [max_steps]; and after any number [n] of [step()] calls from [reset]
    the same two facts hold, so the count never exceeds the limit while
    the machine runs. *)
Theorem step_accounting (m : machine) (input : string) :
  0 <= max_steps m ->
  (exists s log,
     run Atc9.step (S (Z.to_nat (max_steps m))) m (reset m input) []
       = Some (Ok (s, log))
     /\ steps s = Z.of_nat (length (transition_trace s))
     /\ steps s <= max_steps m)
  /\ (forall n, exists s rs,
        step_n Atc9.step n m (reset m input) = Ok (s, rs)
        /\ steps s = Z.of_nat (length (transition_trace s))
        /\ 0 <= steps s <= max_steps m).
Proof.
  intros Hmax.
  set (P := fun s => steps_accounted s /\ 0 <= steps s <= max_steps m).
  assert (HP : forall s s' r, head_in_window s -> P s ->
                              step_case m s s' r -> P s').
  { intros s s' r _ [Ha Hb] Hc.
    split; eauto using step_case_accounted, step_case_bounded. }
  assert (H0 : P (reset m input)).
  { split; [reflexivity | simpl; lia]. }
  split.
  - destruct (run_spec m P HP (Z.to_nat (max_steps m)) (reset m input) [])
      as (s0 & s' & cont & msg & log0 & Hrun & _ & _ & _ & _ & _ & _ & Ha & Hb);
      auto using reset_window.
    { simpl. lia. }
    exists s', ([] ++ log0 ++ [msg]). split; [exact Hrun|].
    split; [exact Ha | lia].
  - intros n.
    destruct (step_n_invariant m P HP n (reset m input))
      as (s & rs & Hrun & _ & [Ha Hb] & _); auto using reset_window.
    exists s, rs. auto.
Qed.

Lemma step_accounting_witness :
  (exists s log,
     run Atc9.step 1001 unary_increment (reset unary_increment "111") []
       = Some (Ok (s, log))
     /\ steps s = Z.of_nat (length (transition_trace s))
     /\ steps s <= 1000)
  /\ (forall n, exists s rs,
        step_n Atc9.step n unary_increment (reset unary_increment "111")
          = Ok (s, rs)
        /\ steps s = Z.of_nat (length (transition_trace s))
        /\ 0 <= steps s <= 1000).
Proof.
  apply (step_accounting unary_increment "111").
  simpl. lia.
Defined.

(** ** Verdicts *)

Ltac the_verdict_is v :=
  exists v; split; [reflexivity|];
  let v' := fresh "v" in let Hv := fresh "Hv" in
  intros v' Hv; destruct v'; simpl in Hv;
  solve [reflexivity | discriminate].

(** Both tests of the final state succeed exactly when the configured
    reject state is the accept state and the run ended there. *)
Lemma accepted_and_rejected (m : machine) (s : run_state) :
  is_accepted m s && is_rejected m s = true
  <-> reject_state m = Some (accept_state m)
      /\ current_state s = accept_state m.
Proof.
  unfold is_accepted, is_rejected.
  rewrite andb_true_iff, !bool_decide_eq_true.
  split; intros [H1 H2]; split; congruence.
Qed.

Lemma verdicts_of_cause (m : machine) (s : run_state) (msg : message) :
  match msg with
  | MsgStepLimit _ | MsgNoTransition _ _ => True
  | _ => is_accepted m s || is_rejected m s = true
  end ->
  (is_accepted m s && is_rejected m s = false -> exactly_one_verdict m s msg)
  /\ (is_accepted m s && is_rejected m s = true ->
      forall v, spec_verdict_holds m s msg v = true
                <-> v = Accepted \/ v = Rejected).
Proof.
  intros Hcause. unfold exactly_one_verdict, spec_verdict_holds.
  destruct (is_accepted m s), (is_rejected m s); simpl in *; split;
    intros Hboth; try discriminate.
  - intros v. destruct v, msg; simpl; split; auto;
      solve [discriminate | intros [Hv | Hv]; discriminate].
  - destruct msg; the_verdict_is Accepted.
  - destruct msg; the_verdict_is Rejected.
  - destruct msg; try discriminate;
      first [ the_verdict_is StepLimitExceeded
            | the_verdict_is StuckNoTransition ].
Qed.

(** The call that ended the loop halted on the step limit, on a lookup
    miss, or by entering the accept or the reject state. *)
Lemma cause_of_last_call (m : machine) (s0 s' : run_state)
    (cont : bool) (msg : message) :
  halted s0 = false -> step_case m s0 s' (cont, msg) ->
  cont && negb (halted s') = false ->
  match msg with
  | MsgStepLimit _ | MsgNoTransition _ _ => True
  | _ => is_accepted m s' || is_rejected m s' = true
  end.
Proof.
  intros Hh Hc Hstop. pose proof (extend_tape_frame s0) as (_ & Hs & _ & _).
  inversion Hc; subst; simpl in *; try congruence;
    unfold is_accepted, is_rejected, terminal in *; simpl in *;
    repeat (case_bool_decide; simpl in * ); auto; try lia; discriminate.
Qed.

(** Claim C2, amended.  The driver loop started from [reset] ends, for
    every machine and every input, with the engine halted.  Unless the
    configured reject state is the accept state and the run ended in it,
    exactly one of the four verdicts holds of the final state; in that one
    case [Accepted] and [Rejected] both hold, and no other verdict. *)
Theorem one_verdict_unless_accept_is_reject (m : machine) (input : string) :
  exists s log msg,
    run Atc9.step (S (Z.to_nat (max_steps m))) m (reset m input) []
      = Some (Ok (s, log))
    /\ last log = Some msg
    /\ halted s = true
    /\ (~ (reject_state m = Some (accept_state m)
           /\ current_state s = accept_state m) ->
        exactly_one_verdict m s msg)
    /\ (reject_state m = Some (accept_state m) ->
        current_state s = accept_state m ->
        forall v, spec_verdict_holds m s msg v = true
                  <-> v = Accepted \/ v = Rejected).
Proof.
  destruct (run_spec m (fun _ => True) (fun _ _ _ _ _ _ => I)
              (Z.to_nat (max_steps m)) (reset m input) [])
    as (s0 & s' & cont & msg & log0 & Hrun & _ & _ & Hh0 & Hc & Hh' & _);
    auto using reset_window.
  { simpl. lia. }
  assert (Hstop : cont && negb (halted s') = false).
  { rewrite Hh'. apply andb_false_r. }
  pose proof (cause_of_last_call m s0 s' cont msg Hh0 Hc Hstop) as Hcause.
  destruct (verdicts_of_cause m s' msg Hcause) as [Hone Htwo].
  exists s', ([] ++ log0 ++ [msg]), msg.
  split; [exact Hrun|]. split; [apply last_snoc|]. split; [exact Hh'|].
  split.
  - intros Hnot. apply Hone.
    destruct (is_accepted m s' && is_rejected m s') eqn:Hboth; [|reflexivity].
    exfalso. apply Hnot. apply accepted_and_rejected. exact Hboth.
  - intros Heq Hst. apply Htwo. apply accepted_and_rejected. auto.
Qed.

(** [Unary Increment] has [reject_state = accept_state], yet on input [0]
    it stops in [q0] on a lookup miss, and exactly one verdict holds. *)
Lemma one_verdict_witness :
  exists s log msg,
    run Atc9.step 1001 unary_increment (reset unary_increment "0") []
      = Some (Ok (s, log))
    /\ last log = Some msg
    /\ current_state s = "q0"
    /\ exactly_one_verdict unary_increment s msg.
Proof.
  destruct (one_verdict_unless_accept_is_reject unary_increment "0")
    as (s & log & msg & Hrun & Hlast & _ & Hone & _).
  exists s, log, msg. split; [exact Hrun|]. split; [exact Hlast|].
  assert (Hst : current_state s = "q0").
  { vm_compute in Hrun. injection Hrun as <- _. reflexivity. }
  split; [exact Hst|].
  apply Hone. intros [_ Hacc]. rewrite Hst in Hacc. discriminate.
Defined.

(** Claim C2, as stated, fails: [Unary Increment] of atc-9.py has
    [reject_state = accept_state = "halt"]; on input [111] it ends in
    [halt], where both [Accepted] and [Rejected] hold. *)
Lemma unary_increment_two_verdicts :
  exists s log msg,
    run Atc9.step 1001 unary_increment (reset unary_increment "111") []
      = Some (Ok (s, log))
    /\ last log = Some msg
    /\ halted s = true
    /\ spec_verdict_holds unary_increment s msg Accepted = true
    /\ spec_verdict_holds unary_increment s msg Rejected = true
    /\ ~ exactly_one_verdict unary_increment s msg.
Proof.
  eexists _, _, _. split; [vm_compute; reflexivity|].
  split; [reflexivity|]. split; [reflexivity|].
  split; [reflexivity|]. split; [reflexivity|].
  intros (v & _ & Huniq).
  pose proof (Huniq Accepted eq_refl) as Ha.
  pose proof (Huniq Rejected eq_refl) as Hr.
  congruence.
Qed.

(** ** The step limit *)




(** ** Lookup misses *)

(** Claim C5, amended.  In a state that is not halted and is below the
    step limit, if the symbol under the head (after the boundary
    extension) has no entry for the current state, [step()] returns
    [(False, no-transition message)] with the flag raised and raises no
    error; when the current state is neither accept nor reject the run is
    classified [StuckNoTransition].  The two-transition flip machine on
    input [1] misses on [(q0,'1')] at its first call and ends
    [StuckNoTransition] with no transition completed. *)
Theorem lookup_miss_halts :
  (forall (m : machine) (s : run_state) (symbol : string),
     halted s = false ->
     steps s < max_steps m ->
     py_get (tape (Atc9.extend_tape s)) (head (Atc9.extend_tape s))
       = Ok symbol ->
     transitions m !! key (current_state s) symbol = None ->
     exists s',
       Atc9.step m s
         = Ok (s', (false, MsgNoTransition (current_state s) symbol))
       /\ halted s' = true
       /\ (terminal m (current_state s) = false ->
           final_verdict m s' = StuckNoTransition
           /\ spec_verdict_holds m s'
                (MsgNoTransition (current_state s) symbol)
                StuckNoTransition = true))
  /\ (exists s,
        run Atc9.step 1001 example_tm (reset example_tm "1") []
          = Some (Ok (s, [MsgNoTransition "q0" "1"]))
        /\ steps s = 0
        /\ transition_trace s = []
        /\ halted s = true
        /\ final_verdict example_tm s = StuckNoTransition
        /\ spec_verdict_holds example_tm s (MsgNoTransition "q0" "1")
             StuckNoTransition = true).
Proof.
  split.
  - intros m s symbol Hh Hlim Hget Hmiss.
    pose proof (extend_tape_frame s) as (Hc & Hs & _ & _).
    exists (halt (Atc9.extend_tape s)). split; [|split; [reflexivity|]].
    + unfold Atc9.step, guarded.
      rewrite bool_decide_eq_false_2 by lia. rewrite Hh.
      unfold transition_phase. rewrite Hget, Hc, Hmiss. reflexivity.
    + intros Hterm. unfold terminal in Hterm.
      apply orb_false_iff in Hterm as [Ha Hr].
      unfold final_verdict, spec_verdict_holds, is_accepted, is_rejected.
      simpl. rewrite Hc, Hs, Ha, Hr.
      rewrite bool_decide_eq_false_2 by lia. split; reflexivity.
  - eexists. split; [vm_compute; reflexivity|]. repeat split.
Qed.

Lemma lookup_miss_halts_witness :
  exists s',
    Atc9.step example_tm (reset example_tm "1")
      = Ok (s', (false, MsgNoTransition "q0" "1"))
    /\ halted s' = true
    /\ (terminal example_tm "q0" = false ->
        final_verdict example_tm s' = StuckNoTransition
        /\ spec_verdict_holds example_tm s' (MsgNoTransition "q0" "1")
             StuckNoTransition = true).
Proof.
  apply (proj1 lookup_miss_halts example_tm (reset example_tm "1") "1").
  - reflexivity.
  - simpl. lia.
  - reflexivity.
  - vm_compute. reflexivity.
Defined.

(** Claim C5, as stated, fails in a state that is not halted but has
    used up its steps: after one step of the one-transition loop machine
    with [max_steps = 1] on input [0] the engine is not halted, the head
    is on a blank and [(loop,'_')] has no entry, yet [step()] returns the
    step-limit message and the run is classified [StepLimitExceeded]. *)
Lemma miss_shadowed_by_step_limit :
  exists s rs,
    step_n Atc9.step 1 (loop_machine 1) (reset (loop_machine 1) "0")
      = Ok (s, rs)
    /\ halted s = false
    /\ py_get (tape (Atc9.extend_tape s)) (head (Atc9.extend_tape s))
       = Ok "_"
    /\ current_state s = "loop"
    /\ transitions (loop_machine 1) !! key "loop" "_" = None
    /\ Atc9.step (loop_machine 1) s = Ok (halt s, (false, MsgStepLimit 1))
    /\ final_verdict (loop_machine 1) (halt s) = StepLimitExceeded
    /\ ~ (exists s',
            Atc9.step (loop_machine 1) s
              = Ok (s', (false, MsgNoTransition "loop" "_"))).
Proof.
  eexists _, _. split; [vm_compute; reflexivity|].
  repeat (split; [vm_compute; reflexivity|]).
  intros (s' & Hstep). vm_compute in Hstep. discriminate.
Qed.

(** ** The tape boundary *)

(** Claim C6, amended.  In a state that is not halted and is below the
    step limit, with the head left of cell 0 or on the first index past
    the end, the extension adds exactly one blank on that end (prepended
    with the head re-indexed to 0, or appended with the head left alone);
    the call returns, its tape is one cell longer, and every symbol that
    was on the tape is still there at the same logical offset. *)
Theorem boundary_extension (m : machine) (s : run_state) :
  halted s = false ->
  steps s < max_steps m ->
  head s < 0 \/ head s = Z.of_nat (length (tape s)) ->
  tape (Atc9.extend_tape s)
    = (if bool_decide (head s < 0) then blank :: tape s
       else tape s ++ [blank])
  /\ head (Atc9.extend_tape s)
     = (if bool_decide (head s < 0) then 0 else head s)
  /\ exists s' r,
       Atc9.step m s = Ok (s', r)
       /\ length (tape s') = S (length (tape s))
       /\ forall origin p x,
            logical_cell origin (tape s) p = Some x ->
            logical_cell (origin + left_growth s) (tape s') p = Some x.
Proof.
  intros Hh Hlim Hpast.
  assert (Htape : tape (Atc9.extend_tape s)
                  = if bool_decide (head s < 0) then blank :: tape s
                    else tape s ++ [blank]).
  { unfold Atc9.extend_tape. repeat case_bool_decide; simpl; auto; lia. }
  pose proof (extend_tape_head s) as Hhead.
  assert (Hb : 0 <= head (Atc9.extend_tape s)
               < Z.of_nat (length (tape (Atc9.extend_tape s)))).
  { rewrite Htape, Hhead. case_bool_decide; simpl;
      rewrite ?length_app; simpl; lia. }
  assert (Hfresh : forall i x, tape s !! i = Some x ->
            Z.to_nat (head (Atc9.extend_tape s)) <> (i + left_growth s)%nat).
  { intros i x Hx%lookup_lt_Some. rewrite Hhead. unfold left_growth.
    case_bool_decide; lia. }
  split; [exact Htape|]. split; [exact Hhead|].
  destruct (step_spec_bounds m s Hb) as (s' & r & Hstep & Hc).
  exists s', r. split; [exact Hstep|].
  assert (Hlen : length (tape (Atc9.extend_tape s)) = S (length (tape s))).
  { rewrite Htape. case_bool_decide; simpl; rewrite ?length_app; simpl; lia. }
  inversion Hc; subst; simpl; try lia; try congruence.
  - split; [exact Hlen|]. intros origin.
    apply logical_cell_shift. apply extend_tape_keeps.
  - rewrite length_insert. split; [exact Hlen|]. intros origin.
    apply logical_cell_shift. intros i x Hx.
    rewrite list_lookup_insert_ne by eauto.
    by apply extend_tape_keeps.
Qed.

Example off_the_left_end_reached :
  step_n Atc9.step 1 (left_mover "halt") (reset (left_mover "halt") "0")
  = Ok (off_the_left_end, [(true, MsgStep 1 "q1" (-1) "0")]).
Proof. vm_compute. reflexivity. Qed.

Lemma boundary_extension_witness :
  tape (Atc9.extend_tape off_the_left_end) = blank :: tape off_the_left_end
  /\ head (Atc9.extend_tape off_the_left_end) = 0
  /\ exists s' r,
       Atc9.step (left_mover "halt") off_the_left_end = Ok (s', r)
       /\ length (tape s') = 52%nat
       /\ forall origin p x,
            logical_cell origin (tape off_the_left_end) p = Some x ->
            logical_cell (origin + 1) (tape s') p = Some x.
Proof.
  apply (boundary_extension (left_mover "halt") off_the_left_end).
  - reflexivity.
  - simpl. lia.
  - left. simpl. lia.
Defined.

(** Claim C6, as stated, fails once the engine is halted: the machine
    that steps left off cell 0 into its accept state halts with
    [head = -1]; the next [step()] answers "already halted" and the tape
    is not extended. *)
Lemma no_extension_once_halted :
  exists s rs,
    step_n Atc9.step 1 (left_mover "q1") (reset (left_mover "q1") "0")
      = Ok (s, rs)
    /\ head s = -1
    /\ halted s = true
    /\ Atc9.step (left_mover "q1") s = Ok (s, (false, MsgAlreadyHalted))
    /\ ~ (exists s' r,
            Atc9.step (left_mover "q1") s = Ok (s', r)
            /\ length (tape s') = S (length (tape s))).
Proof.
  eexists _, _. split; [vm_compute; reflexivity|].
  repeat (split; [vm_compute; reflexivity|]).
  intros (s' & r & Hstep & Hlen). vm_compute in Hstep.
  injection Hstep as <- _. vm_compute in Hlen. discriminate.
Qed.

(** Claim C10, amended.  When [step()] reports a lookup miss, it has
    only raised the flag after the boundary extension: the current
    state, the step count and the trace are as before the call; the tape
    has gained at most one cell, a blank at one end, and every symbol is
    still at its logical offset; the head is as before unless it was
    negative, in which case the extension re-indexed it to 0. *)
Theorem miss_changes_only_flag (m : machine) (s s' : run_state) (cont : bool)
    (state symbol : string) :
  Atc9.step m s = Ok (s', (cont, MsgNoTransition state symbol)) ->
  cont = false
  /\ transitions m !! key (current_state s) symbol = None
  /\ halted s' = true
  /\ current_state s' = current_state s
  /\ steps s' = steps s
  /\ transition_trace s' = transition_trace s
  /\ head s' = (if bool_decide (head s < 0) then 0 else head s)
  /\ (tape s' = tape s \/ tape s' = tape s ++ [blank]
      \/ tape s' = blank :: tape s)
  /\ forall origin p x,
       logical_cell origin (tape s) p = Some x ->
       logical_cell (origin + left_growth s) (tape s') p = Some x.
Proof.
  unfold Atc9.step, guarded. case_bool_decide; [discriminate|].
  destruct (halted s) eqn:Hh; [discriminate|].
  pose proof (extend_tape_frame s) as (Hc & Hs & Ht & _).
  pose proof (extend_tape_head s) as Hhead.
  unfold transition_phase.
  destruct (py_get _ _) as [sym|]; [|discriminate]. rewrite Hc.
  destruct (transitions m !! key (current_state s) sym)
    as [[[next write] dir]|] eqn:Hlook.
  { destruct (py_set _ _ _); discriminate. }
  intros [= <- <- <- <-]. simpl.
  repeat split; auto.
  - unfold Atc9.extend_tape. repeat case_bool_decide; simpl; auto; lia.
  - intros origin. apply logical_cell_shift. apply extend_tape_keeps.
Qed.

Lemma miss_changes_only_flag_witness :
  false = false
  /\ transitions example_tm !! key "q0" "1" = None
  /\ halted (halt (reset example_tm "1")) = true
  /\ current_state (halt (reset example_tm "1")) = "q0"
  /\ steps (halt (reset example_tm "1")) = 0
  /\ transition_trace (halt (reset example_tm "1")) = []
  /\ head (halt (reset example_tm "1")) = 0
  /\ (tape (halt (reset example_tm "1")) = tape (reset example_tm "1")
      \/ tape (halt (reset example_tm "1"))
         = tape (reset example_tm "1") ++ [blank]
      \/ tape (halt (reset example_tm "1"))
         = blank :: tape (reset example_tm "1"))
  /\ forall origin p x,
       logical_cell origin (tape (reset example_tm "1")) p = Some x ->
       logical_cell (origin + 0) (tape (halt (reset example_tm "1"))) p
         = Some x.
Proof.
  apply (miss_changes_only_flag example_tm (reset example_tm "1")
           (halt (reset example_tm "1")) false "q0" "1").
  vm_compute. reflexivity.
Defined.

(** Claim C10, as stated, fails for the head: after the machine has
    stepped left off cell 0 ([head = -1]) the next call prepends a blank,
    re-indexes the head to 0 and then misses on [(q1,'_')]; [head] is 0
    after the call and was -1 before it. *)
Lemma miss_reindexes_head :
  exists s rs s',
    step_n Atc9.step 1 (left_mover "halt") (reset (left_mover "halt") "0")
      = Ok (s, rs)
    /\ Atc9.step (left_mover "halt") s
       = Ok (s', (false, MsgNoTransition "q1" "_"))
    /\ head s = -1
    /\ head s' = 0
    /\ head s' <> head s.
Proof.
  eexists _, _, _. split; [vm_compute; reflexivity|].
  split; [vm_compute; reflexivity|]. repeat split. discriminate.
Qed.

(** ** The flip machine on atc-6.py's engine *)

Lemma transition_phase_hit (m : machine) (s : run_state)
    (symbol next_state write_symbol direction : string)
    (tape' : list string) :
  py_get (tape s) (head s) = Ok symbol ->
  transitions m !! key (current_state s) symbol
    = Some (next_state, write_symbol, direction) ->
  py_set (tape s) (head s) write_symbol = Ok tape' ->
  transition_phase m s =
  Ok ({| tape := tape';
         head := move direction (head s);
         current_state := next_state;
         steps := steps s + 1;
         transition_trace :=
           transition_trace s ++
           [trace_entry (current_state s) symbol
                        next_state write_symbol direction];
         halted := if terminal m next_state then true else halted s |},
      (negb (if terminal m next_state then true else halted s),
       MsgStep (steps s + 1) next_state (move direction (head s))
               (trimmed_tape tape'))).
Proof.
  intros Hget Hlook Hset. unfold transition_phase.
  rewrite Hget, Hlook, Hset. reflexivity.
Qed.

(** Claim C8.  Take any machine that starts in [q0], accepts in [halt],
    does not reject in [q1], allows at least two steps and has the two
    transitions [(q0,'0') -> (q1,'1',R)] and [(q1,'_') -> (halt,'_',N)];
    the two-transition machine of the claim and [Flip 0 to 1] of atc-6.py
    are such machines.  On input [0] the driver loop makes exactly two
    [step()] calls, both executed steps; the engine ends halted in
    [halt], the verdict is [Accepted], and the tape trimmed of blanks is
    [1]. *)
Theorem flip_accepts_zero (m : machine) (fuel : nat) :
  start_state m = "q0" ->
  accept_state m = "halt" ->
  reject_state m <> Some "q1" ->
  transitions m !! "q0_0" = Some ("q1", "1", "R") ->
  transitions m !! "q1__" = Some ("halt", "_", "N") ->
  2 <= max_steps m ->
  (2 <= fuel)%nat ->
  exists s,
    run Atc6.step fuel m (reset m "0") []
      = Some (Ok (s, [MsgStep 1 "q1" 1 "1"; MsgStep 2 "halt" 1 "1"]))
    /\ steps s = 2
    /\ transition_trace s
       = ["(q0, 0) → (q1, 1, R)"; "(q1, _) → (halt, _, N)"]
    /\ current_state s = "halt"
    /\ halted s = true
    /\ is_accepted m s = true
    /\ final_verdict m s = Accepted
    /\ trimmed_tape (tape s) = "1".
Proof.
  intros Hstart Haccept Hreject Hq0 Hq1 Hmax Hfuel.
  destruct fuel as [|[|fuel]]; [lia..|].
  assert (Hterm1 : terminal m "q1" = false).
  { unfold terminal. rewrite Haccept.
    rewrite (bool_decide_eq_false_2 (Some "q1" = reject_state m)) by congruence.
    reflexivity. }
  assert (Hterm2 : terminal m "halt" = true).
  { unfold terminal. rewrite Haccept. reflexivity. }
  set (s1 := {| tape := "1" :: replicate 50 blank; head := 1;
                current_state := "q1"; steps := 1;
                transition_trace := ["(q0, 0) → (q1, 1, R)"];
                halted := false |}).
  assert (Hstep1 : Atc6.step m (reset m "0")
                   = Ok (s1, (true, MsgStep 1 "q1" 1 "1"))).
  { unfold Atc6.step, guarded.
    rewrite bool_decide_eq_false_2 by (simpl; lia). cbn [halted reset].
    erewrite (transition_phase_hit m _ "0" "q1" "1" "R");
      [ | reflexivity | cbn [current_state reset]; rewrite Hstart; exact Hq0
        | reflexivity ].
    rewrite Hterm1. unfold reset.
    cbn [tape head current_state steps transition_trace halted].
    rewrite Hstart. reflexivity. }
  set (s2 := {| tape := "1" :: replicate 50 blank; head := 1;
                current_state := "halt"; steps := 2;
                transition_trace :=
                  ["(q0, 0) → (q1, 1, R)"; "(q1, _) → (halt, _, N)"];
                halted := true |}).
  assert (Hstep2 : Atc6.step m s1 = Ok (s2, (false, MsgStep 2 "halt" 1 "1"))).
  { unfold Atc6.step, guarded.
    rewrite bool_decide_eq_false_2 by (simpl; lia). cbn [halted s1].
    erewrite (transition_phase_hit m _ "_" "halt" "_" "N");
      [ | reflexivity | exact Hq1 | reflexivity ].
    rewrite Hterm2. reflexivity. }
  exists s2. split.
  - rewrite run_unfold. cbn [halted reset]. rewrite Hstep1.
    cbn [andb negb halted s1].
    rewrite run_unfold. cbn [halted s1]. rewrite Hstep2. reflexivity.
  - unfold final_verdict, is_accepted. simpl. rewrite Haccept.
    repeat split.
Qed.

Lemma flip_accepts_zero_witness :
  exists s,
    run Atc6.step 1001 example_tm (reset example_tm "0") []
      = Some (Ok (s, [MsgStep 1 "q1" 1 "1"; MsgStep 2 "halt" 1 "1"]))
    /\ steps s = 2
    /\ transition_trace s
       = ["(q0, 0) → (q1, 1, R)"; "(q1, _) → (halt, _, N)"]
    /\ current_state s = "halt"
    /\ halted s = true
    /\ is_accepted example_tm s = true
    /\ final_verdict example_tm s = Accepted
    /\ trimmed_tape (tape s) = "1".
Proof.
  apply (flip_accepts_zero example_tm 1001);
    first [ reflexivity | discriminate | (simpl; lia) | lia ].
Defined.

(** The same run for [Flip 0 to 1] of atc-6.py, by evaluation. *)
Example flip_0_to_1_accepts_zero :
  exists s,
    run Atc6.step 1001 flip_0_to_1 (reset flip_0_to_1 "0") []
      = Some (Ok (s, [MsgStep 1 "q1" 1 "1"; MsgStep 2 "halt" 1 "1"]))
    /\ final_verdict flip_0_to_1 s = Accepted
    /\ render (MsgStep 2 "halt" 1 (trimmed_tape (tape s)))
       = "Step 2: State=halt, Head=1, Tape=1".
Proof. eexists. split; [vm_compute; reflexivity|]. split; reflexivity. Qed.

(** * Further properties of the engines *)

(** ** The two [step] methods compared *)

Lemma py_index_Some_lt {A} (l : list A) (i : Z) (k : nat) :
  py_index l i = Some k -> (k < length l)%nat.
Proof.
  unfold py_index. cbv zeta. repeat case_bool_decide; intros [= <-]; lia.
Qed.

Lemma py_index_None {A} (l : list A) (i : Z) :
  py_index l i = None <->
  ~ (- Z.of_nat (length l) <= i < Z.of_nat (length l)).
Proof.
  unfold py_index. cbv zeta.
  repeat case_bool_decide; split; intros Hx; try discriminate; try lia; auto.
Qed.

Lemma py_get_error {A} (l : list A) (i : Z) :
  py_get l i = IndexError <->
  ~ (- Z.of_nat (length l) <= i < Z.of_nat (length l)).
Proof.
  rewrite <- py_index_None. unfold py_get.
  destruct (py_index l i) as [k|] eqn:Hk; [|tauto].
  destruct (lookup_lt_is_Some_2 l k (py_index_Some_lt l i k Hk)) as [x ->].
  split; discriminate.
Qed.

Lemma py_get_Ok_set_Ok {A} (l : list A) (i : Z) (x y : A) :
  py_get l i = Ok x -> exists l', py_set l i y = Ok l'.
Proof.
  unfold py_get, py_set. destruct (py_index l i); [eauto | discriminate].
Qed.

Lemma extend_tape_id (s : run_state) :
  0 <= head s < Z.of_nat (length (tape s)) -> Atc9.extend_tape s = s.
Proof.
  intros Hb. unfold Atc9.extend_tape.
  rewrite !bool_decide_eq_false_2 by lia. destruct s; reflexivity.
Qed.

(** X1.  While the head is on a materialized cell, the [step] of atc-9.py
    does exactly what the [step] of atc-6.py does: the boundary extension
    only matters at the two ends. *)
Theorem steps_agree_on_the_tape (m : machine) (s : run_state) :
  0 <= head s < Z.of_nat (length (tape s)) ->
  Atc9.step m s = Atc6.step m s.
Proof.
  intros Hb. unfold Atc9.step, Atc6.step, guarded.
  rewrite (extend_tape_id s Hb). reflexivity.
Qed.

Lemma steps_agree_on_the_tape_witness :
  Atc9.step flip_0_to_1 (reset flip_0_to_1 "0")
  = Atc6.step flip_0_to_1 (reset flip_0_to_1 "0").
Proof.
  apply (steps_agree_on_the_tape flip_0_to_1 (reset flip_0_to_1 "0")).
  vm_compute. split; [discriminate | reflexivity].
Defined.

(** X2.  The [step] of atc-6.py raises [IndexError] exactly when it gets
    past its two guards with the head outside [-len(tape) .. len(tape)-1];
    in every other state it returns. *)
Theorem atc6_step_raises_iff (m : machine) (s : run_state) :
  Atc6.step m s = IndexError <->
  steps s < max_steps m /\ halted s = false
  /\ ~ (- Z.of_nat (length (tape s)) <= head s < Z.of_nat (length (tape s))).
Proof.
  unfold Atc6.step, guarded.
  case_bool_decide as Hlim; [split; [discriminate | lia]|].
  destruct (halted s) eqn:Hh; [split; [discriminate | intros (_ & ? & _); discriminate]|].
  rewrite <- py_get_error. unfold transition_phase.
  destruct (py_get (tape s) (head s)) as [sym|] eqn:Hget.
  - destruct (transitions m !! key (current_state s) sym)
      as [[[next write] dir]|].
    + destruct (py_get_Ok_set_Ok _ _ sym write Hget) as [l' ->].
      split; [discriminate | intros (_ & _ & ?); discriminate].
    + split; [discriminate | intros (_ & _ & ?); discriminate].
  - split; [intros _; split; [lia | split; reflexivity] | reflexivity].
Qed.

(** X3.  With a negative head that is still within [-len(tape)], the
    [step] of atc-6.py does not fail: Python's negative index makes it
    read, and on a hit write, the cell [len(tape) + head], counted from
    the right end of the tape. *)
Theorem atc6_negative_head_wraps (m : machine) (s : run_state) :
  halted s = false ->
  steps s < max_steps m ->
  - Z.of_nat (length (tape s)) <= head s < 0 ->
  exists symbol,
    tape s !! Z.to_nat (Z.of_nat (length (tape s)) + head s) = Some symbol
    /\ match transitions m !! key (current_state s) symbol with
       | None =>
           Atc6.step m s
           = Ok (halt s, (false, MsgNoTransition (current_state s) symbol))
       | Some (next_state, write_symbol, direction) =>
           exists s' r,
             Atc6.step m s = Ok (s', r)
             /\ tape s'
                = <[Z.to_nat (Z.of_nat (length (tape s)) + head s)
                    := write_symbol]> (tape s)
             /\ head s' = move direction (head s)
             /\ current_state s' = next_state
       end.
Proof.
  intros Hh Hlim Hneg.
  assert (Hidx : py_index (tape s) (head s)
                 = Some (Z.to_nat (Z.of_nat (length (tape s)) + head s))).
  { unfold py_index. cbv zeta.
    rewrite bool_decide_eq_false_2 by lia.
    rewrite bool_decide_eq_true_2 by lia. reflexivity. }
  destruct (lookup_lt_is_Some_2 (tape s)
              (Z.to_nat (Z.of_nat (length (tape s)) + head s)))
    as [sym Hsym]; [lia|].
  exists sym. split; [exact Hsym|].
  unfold Atc6.step, guarded. rewrite bool_decide_eq_false_2 by lia.
  rewrite Hh. unfold transition_phase, py_get, py_set.
  rewrite Hidx, Hsym.
  destruct (transitions m !! key (current_state s) sym)
    as [[[next write] dir]|]; [|reflexivity].
  eexists _, _. split; [reflexivity|]. repeat split.
Qed.

Lemma atc6_negative_head_wraps_witness :
  exists symbol,
    tape off_the_left_end !! 50%nat = Some symbol
    /\ match transitions (left_mover "halt") !! key "q1" symbol with
       | None =>
           Atc6.step (left_mover "halt") off_the_left_end
           = Ok (halt off_the_left_end, (false, MsgNoTransition "q1" symbol))
       | Some (next_state, write_symbol, direction) =>
           exists s' r,
             Atc6.step (left_mover "halt") off_the_left_end = Ok (s', r)
             /\ tape s' = <[50%nat := write_symbol]> (tape off_the_left_end)
             /\ head s' = move direction (-1)
             /\ current_state s' = next_state
       end.
Proof.
  apply (atc6_negative_head_wraps (left_mover "halt") off_the_left_end).
  - reflexivity.
  - simpl. lia.
  - vm_compute. split; [discriminate | reflexivity].
Defined.

Lemma transition_phase_flag (m : machine) (s s' : run_state) (cont : bool)
    (msg : message) :
  transition_phase m s = Ok (s', (cont, msg)) -> cont = negb (halted s').
Proof.
  unfold transition_phase.
  destruct (py_get _ _) as [sym|]; [|discriminate].
  destruct (transitions m !! _) as [[[next write] dir]|].
  - destruct (py_set _ _ _); [|discriminate]. intros [= <- <- _]. reflexivity.
  - intros [= <- <- _]. reflexivity.
Qed.

(** X6.  Whenever a [step] of either engine returns, the flag it returns
    is the negation of [halted] after the call; the drivers' test
    [cont and not tm.halted] is the test of either alone. *)
Theorem continue_flag_is_not_halted (step : stepper) (m : machine)
    (s s' : run_state) (cont : bool) (msg : message) :
  step = Atc6.step \/ step = Atc9.step ->
  step m s = Ok (s', (cont, msg)) ->
  cont = negb (halted s') /\ cont && negb (halted s') = cont.
Proof.
  intros Hstep Hcall.
  assert (Hflag : cont = negb (halted s')).
  { destruct Hstep as [-> | ->]; revert Hcall;
      unfold Atc6.step, Atc9.step, guarded;
      (case_bool_decide; [intros [= <- <- _]; reflexivity|]);
      (destruct (halted s) eqn:Hh;
         [intros [= <- <- _]; rewrite Hh; reflexivity|]);
      apply transition_phase_flag. }
  split; [exact Hflag|]. rewrite Hflag. apply andb_diag.
Qed.

Lemma continue_flag_is_not_halted_witness :
  false = negb (halted (halt (reset example_tm "1")))
  /\ false && negb (halted (halt (reset example_tm "1"))) = false.
Proof.
  apply (continue_flag_is_not_halted Atc9.step example_tm
           (reset example_tm "1") (halt (reset example_tm "1")) false
           (MsgNoTransition "q0" "1")).
  - right. reflexivity.
  - vm_compute. reflexivity.
Defined.

(** ** What one executed step does to the tape *)

Lemma step_case_of_call (m : machine) (s s' : run_state) (r : bool * message) :
  head_in_window s -> Atc9.step m s = Ok (s', r) -> step_case m s s' r.
Proof.
  intros Hw Hcall. destruct (step_spec m s Hw) as (s2 & r2 & Hstep & Hc).
  rewrite Hcall in Hstep. injection Hstep as <- <-. exact Hc.
Qed.

Lemma move_shift (direction : string) (hd c : Z) :
  move direction (hd + c) = move direction hd + c.
Proof. unfold move. repeat case_bool_decide; lia. Qed.

(** X7.  A call of atc-9.py's [step] that gets past the guards changes at
    most the cell under the head: every other symbol stays at its logical
    offset.  If the call executed a transition (it returned a [Step]
    message), the cell under the head now holds the symbol that the
    transition writes, and the head has moved by the transition's
    direction, in logical offsets too. *)
Theorem step_writes_one_cell (m : machine) (s s' : run_state) (cont : bool)
    (msg : message) (origin : nat) :
  head_in_window s ->
  halted s = false ->
  steps s < max_steps m ->
  Atc9.step m s = Ok (s', (cont, msg)) ->
  (forall p x,
     p <> head s - Z.of_nat origin ->
     logical_cell origin (tape s) p = Some x ->
     logical_cell (origin + left_growth s) (tape s') p = Some x)
  /\ (forall n next_state hd trimmed,
        msg = MsgStep n next_state hd trimmed ->
        exists symbol write_symbol direction,
          transitions m !! key (current_state s) symbol
            = Some (next_state, write_symbol, direction)
          /\ logical_cell (origin + left_growth s) (tape s')
                          (head s - Z.of_nat origin) = Some write_symbol
          /\ head s' - Z.of_nat (origin + left_growth s)
             = move direction (head s - Z.of_nat origin)).
Proof.
  intros Hw Hh Hlim Hcall.
  pose proof (step_case_of_call m s s' _ Hw Hcall) as Hc.
  pose proof (extend_tape_in_bounds s Hw) as Hb.
  pose proof (extend_tape_head s) as Hhead.
  assert (Hg : head (Atc9.extend_tape s)
               = head s + Z.of_nat (left_growth s)).
  { rewrite Hhead. unfold left_growth. unfold head_in_window in Hw.
    case_bool_decide; lia. }
  inversion Hc; subst; try lia; try congruence.
  - split; [|intros; discriminate].
    intros p x _. apply logical_cell_shift. apply extend_tape_keeps.
  - cbn [tape head]. split.
    + intros p x Hp. unfold logical_cell.
      destruct (bool_decide (0 <= p + Z.of_nat origin)) eqn:H0;
        [|discriminate].
      apply bool_decide_eq_true_1 in H0. intros Hx.
      rewrite bool_decide_eq_true_2 by lia.
      replace (Z.to_nat (p + Z.of_nat (origin + left_growth s)))
        with (Z.to_nat (p + Z.of_nat origin) + left_growth s)%nat by lia.
      rewrite list_lookup_insert_ne by lia.
      by apply extend_tape_keeps.
    + intros n nxt hd trimmed [= _ <- _ _].
      exists symbol, write_symbol, direction. split; [assumption|]. split.
      * unfold logical_cell. rewrite bool_decide_eq_true_2 by lia.
        replace (Z.to_nat (head s - Z.of_nat origin
                           + Z.of_nat (origin + left_growth s)))
          with (Z.to_nat (head (Atc9.extend_tape s))) by lia.
        apply list_lookup_insert_eq. lia.
      * rewrite Hg.
        replace (head s + Z.of_nat (left_growth s))
          with ((head s - Z.of_nat origin)
                + Z.of_nat (origin + left_growth s)) by lia.
        rewrite move_shift. lia.
Qed.

Lemma step_writes_one_cell_witness :
  (forall p x,
     p <> -1 - Z.of_nat 0 ->
     logical_cell 0 (tape off_the_left_end) p = Some x ->
     logical_cell (0 + 1) ("_" :: tape off_the_left_end) p = Some x)
  /\ (forall n next_state hd trimmed,
        MsgNoTransition "q1" "_" = MsgStep n next_state hd trimmed ->
        exists symbol write_symbol direction,
          transitions (left_mover "halt") !! key "q1" symbol
            = Some (next_state, write_symbol, direction)
          /\ logical_cell (0 + 1) ("_" :: tape off_the_left_end)
                          (-1 - Z.of_nat 0) = Some write_symbol
          /\ 0 - Z.of_nat (0 + 1) = move direction (-1 - Z.of_nat 0)).
Proof.
  apply (step_writes_one_cell (left_mover "halt") off_the_left_end
           (halt (Atc9.extend_tape off_the_left_end)) false
           (MsgNoTransition "q1" "_") 0).
  - unfold head_in_window. simpl. lia.
  - reflexivity.
  - simpl. lia.
  - vm_compute. reflexivity.
Defined.

(** ** Growth of the tape *)

(** X8.  The tape never shrinks and grows by at most one cell per counted
    step, plus one for a final miss: after any number of [step()] calls
    from [reset] it has at least [len(input) + 50] cells and at most
    [len(input) + 50 + steps + 1], hence at most
    [len(input) + 51 + max_steps], where [len(input)] is the number of
    characters of the input, [length (py_list input)], not of its
    bytes. *)
Theorem tape_growth_bounded (m : machine) (input : string) (n : nat) :
  0 <= max_steps m ->
  exists s rs,
    step_n Atc9.step n m (reset m input) = Ok (s, rs)
    /\ (length (py_list input) + 50 <= length (tape s))%nat
    /\ Z.of_nat (length (tape s))
       <= Z.of_nat (length (py_list input)) + 50 + steps s + 1
    /\ Z.of_nat (length (tape s))
       <= Z.of_nat (length (py_list input)) + 51 + max_steps m.
Proof.
  intros Hmax.
  set (P := fun s =>
    (length (py_list input) + 50 <= length (tape s))%nat
    /\ Z.of_nat (length (tape s))
       <= Z.of_nat (length (py_list input)) + 50 + steps s
          + (if halted s then 1 else 0)
    /\ 0 <= steps s <= max_steps m).
  assert (HP : forall s s' r, head_in_window s -> P s ->
                              step_case m s s' r -> P s').
  { intros s s' r _ (Hlo & Hhi & Hb) Hc.
    pose proof (extend_tape_length s) as Hlen.
    pose proof (extend_tape_frame s) as (_ & Hs & _ & _).
    inversion Hc; subst; unfold P; simpl.
    - destruct (halted s); lia.
    - rewrite H0 in *. lia.
    - rewrite H0 in Hhi. lia.
    - rewrite length_insert. rewrite H0 in Hhi.
      destruct (terminal m next_state); lia. }
  destruct (step_n_invariant m P HP n (reset m input))
    as (s & rs & Hrun & _ & (Hlo & Hhi & Hb) & _).
  { apply reset_window. }
  { unfold P, reset. cbn [tape steps halted].
    rewrite length_app, length_replicate. lia. }
  exists s, rs. split; [exact Hrun|]. split; [exact Hlo|].
  destruct (halted s); lia.
Qed.

Lemma tape_growth_bounded_witness :
  exists s rs,
    step_n Atc9.step 3 (halting_problem 5) (reset (halting_problem 5) "é1")
      = Ok (s, rs)
    /\ (2 + 50 <= length (tape s))%nat
    /\ Z.of_nat (length (tape s)) <= Z.of_nat 2 + 50 + steps s + 1
    /\ Z.of_nat (length (tape s)) <= Z.of_nat 2 + 51 + 5.
Proof.
  apply (tape_growth_bounded (halting_problem 5) "é1" 3).
  simpl. lia.
Defined.

(** ** The trace *)

Lemma transition_phase_trace (m : machine) (s s' : run_state)
    (r : bool * message) :
  transition_phase m s = Ok (s', r) ->
  transition_trace s `prefix_of` transition_trace s'.
Proof.
  unfold transition_phase.
  destruct (py_get _ _) as [sym|]; [|discriminate].
  destruct (transitions m !! _) as [[[next write] dir]|].
  - destruct (py_set _ _ _); [|discriminate]. intros [= <- _].
    simpl. by apply prefix_app_r.
  - intros [= <- _]. reflexivity.
Qed.

Lemma step_trace (step : stepper) (m : machine) (s s' : run_state)
    (r : bool * message) :
  step = Atc6.step \/ step = Atc9.step ->
  step m s = Ok (s', r) ->
  transition_trace s `prefix_of` transition_trace s'.
Proof.
  intros [-> | ->]; unfold Atc6.step, Atc9.step, guarded;
    (case_bool_decide; [intros [= <- _]; reflexivity|]);
    (destruct (halted s); [intros [= <- _]; reflexivity|]);
    intros Hphase; apply transition_phase_trace in Hphase; [exact Hphase|].
  destruct (extend_tape_frame s) as (_ & _ & <- & _). exact Hphase.
Qed.

Lemma step_n_trace (step : stepper) (m : machine) (n : nat) :
  step = Atc6.step \/ step = Atc9.step ->
  forall s s' rs,
    step_n step n m s = Ok (s', rs) ->
    transition_trace s `prefix_of` transition_trace s'.
Proof.
  intros Hstep. induction n as [|n IH]; intros s s' rs; simpl.
  - intros [= <- _]. reflexivity.
  - destruct (step m s) as [[s1 r]|] eqn:Hcall; [|discriminate].
    destruct (step_n step n m s1) as [[s2 rs2]|] eqn:Hrest; [|discriminate].
    intros [= <- _]. etrans.
    + eapply step_trace; eauto.
    + eapply IH; eauto.
Qed.

(** X9.  The trace is append-only for both engines: whatever [step()]
    calls are made, from whatever state, the trace before them is a
    prefix of the trace after them, and it has grown by at most one entry
    per call. *)
Theorem trace_is_append_only (step : stepper) (m : machine) (n : nat)
    (s s' : run_state) (rs : list (bool * message)) :
  step = Atc6.step \/ step = Atc9.step ->
  step_n step n m s = Ok (s', rs) ->
  transition_trace s `prefix_of` transition_trace s'
  /\ (length (transition_trace s') <= length (transition_trace s) + n)%nat.
Proof.
  intros Hstep Hrun. split; [eapply step_n_trace; eauto|].
  revert s s' rs Hrun. induction n as [|n IH]; intros s s' rs; simpl.
  - intros [= <- _]. lia.
  - destruct (step m s) as [[s1 [cont msg]]|] eqn:Hcall; [|discriminate].
    destruct (step_n step n m s1) as [[s2 rs2]|] eqn:Hrest; [|discriminate].
    intros [= <- _]. specialize (IH _ _ _ Hrest).
    assert (Hone : (length (transition_trace s1)
                    <= S (length (transition_trace s)))%nat).
    { destruct Hstep as [-> | ->]; revert Hcall;
        unfold Atc6.step, Atc9.step, guarded;
        (case_bool_decide; [intros [= <- _]; simpl; lia|]);
        (destruct (halted s); [intros [= <- _]; lia|]);
        unfold transition_phase;
        (destruct (py_get _ _) as [sym|]; [|discriminate]);
        (destruct (transitions m !! _) as [[[next write] dir]|];
           [destruct (py_set _ _ _); [|discriminate]|]);
        intros [= <- _]; simpl; rewrite ?length_app; simpl;
        destruct (extend_tape_frame s) as (_ & _ & Ht & _);
        rewrite ?Ht; lia. }
    lia.
Qed.

Lemma trace_is_append_only_witness :
  transition_trace (reset flip_0_to_1 "0")
    `prefix_of` ["(q0, 0) → (q1, 1, R)"; "(q1, _) → (halt, _, N)"]
  /\ (2 <= length (transition_trace (reset flip_0_to_1 "0")) + 3)%nat.
Proof.
  apply (trace_is_append_only Atc9.step flip_0_to_1 3
           (reset flip_0_to_1 "0")
           {| tape := "1" :: replicate 50 blank; head := 1;
              current_state := "halt"; steps := 2;
              transition_trace :=
                ["(q0, 0) → (q1, 1, R)"; "(q1, _) → (halt, _, N)"];
              halted := true |}
           [(true, MsgStep 1 "q1" 1 "1"); (false, MsgStep 2 "halt" 1 "1");
            (false, MsgAlreadyHalted)]).
  - right. reflexivity.
  - vm_compute. reflexivity.
Defined.

(** ** Dictionary keys *)




(** ** The tape as it is displayed in a message *)

Lemma string_app_assoc (a b c : string) :
  a +:+ (b +:+ c) = (a +:+ b) +:+ c.
Proof.
  induction a as [|x a IH]; [reflexivity|].
  change (String x (a +:+ (b +:+ c)) = String x ((a +:+ b) +:+ c)).
  rewrite IH. reflexivity.
Qed.

Lemma py_join_app (l1 l2 : list string) :
  py_join (l1 ++ l2) = py_join l1 +:+ py_join l2.
Proof.
  induction l1 as [|x l1 IH]; [reflexivity|].
  change (x +:+ py_join (l1 ++ l2) = (x +:+ py_join l1) +:+ py_join l2).
  rewrite IH. apply string_app_assoc.
Qed.

Lemma lstrip_blanks (n : nat) :
  lstrip "_" (py_join (replicate n blank)) = "".
Proof. induction n as [|n IH]; [reflexivity | exact IH]. Qed.

Lemma rstrip_blanks (n : nat) :
  rstrip "_" (py_join (replicate n blank)) = "".
Proof.
  induction n as [|n IH]; [reflexivity|].
  change (rstrip "_" (String "_" (py_join (replicate n blank))) = "").
  simpl. rewrite IH. reflexivity.
Qed.

Lemma rstrip_app_blanks (s : string) (n : nat) :
  rstrip "_" (s +:+ py_join (replicate n blank)) = rstrip "_" s.
Proof.
  induction s as [|a s IH]; [apply rstrip_blanks|].
  simpl. rewrite IH. reflexivity.
Qed.

Lemma lstrip_app_blanks (s : string) (n : nat) :
  lstrip "_" (s +:+ py_join (replicate n blank))
  = match lstrip "_" s with
    | EmptyString => EmptyString
    | r => r +:+ py_join (replicate n blank)
    end.
Proof.
  induction s as [|a s IH]; [apply lstrip_blanks|].
  simpl. case_bool_decide; [exact IH | reflexivity].
Qed.

Lemma strip_blank_app_blanks (s : string) (n : nat) :
  strip_blank (s +:+ py_join (replicate n blank)) = strip_blank s.
Proof.
  unfold strip_blank. rewrite lstrip_app_blanks.
  destruct (lstrip "_" s) as [|a r]; [reflexivity|].
  apply rstrip_app_blanks.
Qed.

(** X10.  The 50 blanks that [reset] puts behind the input never show in
    the displayed tape: right after [reset] the trimmed tape is the input
    with its own leading and trailing underscores stripped. *)
Theorem trimmed_tape_after_reset (m : machine) (input : string) :
  trimmed_tape (tape (reset m input)) = strip_blank input.
Proof.
  unfold trimmed_tape, reset. cbn [tape].
  rewrite py_join_app, py_join_py_list. apply strip_blank_app_blanks.
Qed.

(** X11.  The boundary extension is invisible in the displayed tape: the
    blank it adds at either end is stripped again. *)
Theorem trimmed_tape_ignores_extension (s : run_state) :
  trimmed_tape (tape (Atc9.extend_tape s)) = trimmed_tape (tape s).
Proof.
  assert (Hright : forall t, trimmed_tape (t ++ [blank]) = trimmed_tape t).
  { intros t. unfold trimmed_tape. rewrite py_join_app.
    apply (strip_blank_app_blanks (py_join t) 1). }
  assert (Hleft : forall t, trimmed_tape (blank :: t) = trimmed_tape t).
  { intros t. reflexivity. }
  unfold Atc9.extend_tape. repeat case_bool_decide; cbn [tape];
    rewrite ?Hleft, ?Hright; reflexivity.
Qed.

(** ** The tape window on the canvas *)

Lemma draw_cell_ok (s : run_state) (i : Z) :
  draw_cell s i =
  Ok {| cell_x := 10 + (i - head s + 10) * 30;
        cell_fill := if bool_decide (i = head s) then "yellow" else "white";
        cell_symbol := default blank (logical_cell 0 (tape s) i);
        cell_state := if bool_decide (i = head s)
                      then Some (current_state s) else None |}.
Proof.
  unfold draw_cell, logical_cell. cbv zeta.
  destruct (bool_decide (i < 0)) eqn:Hneg.
  - apply bool_decide_eq_true_1 in Hneg. cbn [orb].
    rewrite (bool_decide_eq_false_2 (0 <= i + Z.of_nat 0)) by lia.
    reflexivity.
  - apply bool_decide_eq_false_1 in Hneg. cbn [orb].
    rewrite (bool_decide_eq_true_2 (0 <= i + Z.of_nat 0)) by lia.
    replace (i + Z.of_nat 0) with i by lia.
    case_bool_decide as Hhi.
    + rewrite lookup_ge_None_2 by lia. reflexivity.
    + destruct (py_get_in_bounds (tape s) i) as (x & -> & ->); [lia|].
      reflexivity.
Qed.

Lemma draw_cells_ok (s : run_state) (indices : list Z) :
  draw_cells s indices =
  Ok (map (fun i =>
             {| cell_x := 10 + (i - head s + 10) * 30;
                cell_fill := if bool_decide (i = head s)
                             then "yellow" else "white";
                cell_symbol := default blank (logical_cell 0 (tape s) i);
                cell_state := if bool_decide (i = head s)
                              then Some (current_state s) else None |})
          indices).
Proof.
  induction indices as [|i rest IH]; [reflexivity|].
  cbn [draw_cells map]. rewrite draw_cell_ok, IH. reflexivity.
Qed.

(** X13.  [update_tape] never raises, wherever the head is: it draws 21
    cells at fixed positions, the head's cell in the middle, alone in
    yellow and alone labelled with the current state; a cell that is not
    materialized is drawn as a blank. *)
Theorem update_tape_window (s : run_state) :
  exists cells,
    update_tape s = Ok cells
    /\ length cells = 21%nat
    /\ forall k : nat,
         (k < 21)%nat ->
         cells !! k =
         Some {| cell_x := 10 + 30 * Z.of_nat k;
                 cell_fill := if bool_decide (k = 10%nat)
                              then "yellow" else "white";
                 cell_symbol :=
                   default blank
                     (logical_cell 0 (tape s) (head s - 10 + Z.of_nat k));
                 cell_state := if bool_decide (k = 10%nat)
                               then Some (current_state s) else None |}.
Proof.
  unfold update_tape. rewrite draw_cells_ok.
  replace (head s + 11 - (head s - 10)) with 21 by lia.
  eexists. split; [reflexivity|]. split.
  - rewrite length_map, length_seqZ. reflexivity.
  - intros k Hk. rewrite list_lookup_fmap.
    rewrite lookup_seqZ_lt by lia. cbn [fmap option_fmap option_map].
    f_equal. f_equal; try lia;
      repeat case_bool_decide; try reflexivity; lia.
Qed.

Lemma shown_symbol_extend (s : run_state) (j : Z) :
  -1 <= head s ->
  default blank (logical_cell 0 (tape (Atc9.extend_tape s))
                              (j + Z.of_nat (left_growth s)))
  = default blank (logical_cell 0 (tape s) j).
Proof.
  intros Hlo. unfold logical_cell, Atc9.extend_tape, left_growth.
  destruct (bool_decide (head s < 0)) eqn:Hneg.
  - apply bool_decide_eq_true_1 in Hneg.
    rewrite (bool_decide_eq_false_2 (Z.of_nat (length (tape s)) <= head s))
      by lia.
    cbn [tape]. repeat case_bool_decide; try lia; try reflexivity.
    + replace (Z.to_nat (j + Z.of_nat 1 + Z.of_nat 0))
        with (S (Z.to_nat (j + Z.of_nat 0))) by lia.
      reflexivity.
    + replace (Z.to_nat (j + Z.of_nat 1 + Z.of_nat 0)) with 0%nat by lia.
      reflexivity.
  - apply bool_decide_eq_false_1 in Hneg.
    replace (j + Z.of_nat 0 + Z.of_nat 0) with j by lia.
    replace (j + Z.of_nat 0) with j by lia.
    destruct (bool_decide (0 <= j)) eqn:Hj; [|reflexivity].
    apply bool_decide_eq_true_1 in Hj.
    case_bool_decide as Hend; cbn [tape]; [|reflexivity].
    destruct (decide (Z.to_nat j < length (tape s))%nat).
    + rewrite lookup_app_l by assumption. reflexivity.
    + rewrite (lookup_ge_None_2 (tape s)) by lia.
      destruct (decide (Z.to_nat j = length (tape s))) as [->|].
      * rewrite list_lookup_middle by reflexivity. reflexivity.
      * rewrite lookup_ge_None_2; [reflexivity|].
        rewrite length_app. simpl. lia.
Qed.

(** X14.  Drawing the tape before and after the boundary extension
    gives the same picture, as long as the head is at most one cell left
    of the tape: the cell the extension adds was already drawn as a
    blank. *)
Theorem update_tape_ignores_extension (s : run_state) :
  -1 <= head s ->
  update_tape (Atc9.extend_tape s) = update_tape s.
Proof.
  intros Hlo. unfold update_tape. rewrite !draw_cells_ok. f_equal.
  pose proof (extend_tape_head s) as Hhead.
  pose proof (extend_tape_frame s) as (Hc & _).
  assert (Hg : head (Atc9.extend_tape s)
               = head s + Z.of_nat (left_growth s)).
  { rewrite Hhead. unfold left_growth. case_bool_decide; lia. }
  replace (head (Atc9.extend_tape s) + 11 - (head (Atc9.extend_tape s) - 10))
    with 21 by lia.
  replace (head s + 11 - (head s - 10)) with 21 by lia.
  apply list_eq. intros k. rewrite !list_lookup_fmap.
  destruct (decide (k < 21)%nat) as [Hk|Hk].
  - rewrite !lookup_seqZ_lt by lia. cbn [fmap option_fmap option_map].
    f_equal. rewrite Hc.
    replace (head (Atc9.extend_tape s) - 10 + Z.of_nat k)
      with ((head s - 10 + Z.of_nat k) + Z.of_nat (left_growth s)) by lia.
    rewrite shown_symbol_extend by exact Hlo.
    rewrite Hg.
    f_equal; try lia; repeat case_bool_decide; try reflexivity; lia.
  - rewrite !lookup_seqZ_ge by lia. reflexivity.
Qed.

Lemma update_tape_ignores_extension_witness :
  update_tape (Atc9.extend_tape off_the_left_end)
  = update_tape off_the_left_end.
Proof.
  apply (update_tape_ignores_extension off_the_left_end).
  simpl. lia.
Defined.

(** ** The driver of atc-9.py *)

Lemma update_tape_total (s : run_state) : exists cells, update_tape s = Ok cells.
Proof. unfold update_tape. rewrite draw_cells_ok. eauto. Qed.

Lemma py_get_last {A} (l : list A) :
  l <> [] -> exists x, py_get l (-1) = Ok x /\ last l = Some x.
Proof.
  intros Hne.
  assert (Hlen : (0 < length l)%nat) by (destruct l; [done | simpl; lia]).
  unfold py_get, py_index. cbv zeta.
  rewrite bool_decide_eq_false_2 by lia.
  rewrite bool_decide_eq_true_2 by lia.
  rewrite last_lookup.
  replace (Z.to_nat (Z.of_nat (length l) + -1)) with (pred (length l)) by lia.
  destruct (lookup_lt_is_Some_2 l (pred (length l))) as [x Hx]; [lia|].
  rewrite Hx. eauto.
Qed.

Lemma run_trace_prefix (m : machine) (fuel : nat) :
  forall s log s' log',
    run Atc9.step fuel m s log = Some (Ok (s', log')) ->
    transition_trace s `prefix_of` transition_trace s'.
Proof.
  induction fuel as [|fuel IH]; intros s log s' log'; [discriminate|].
  rewrite run_unfold. destruct (halted s); [intros [= <- _]; reflexivity|].
  destruct (Atc9.step m s) as [[s1 [cont msg]]|] eqn:Hstep; [|discriminate].
  assert (Hp : transition_trace s `prefix_of` transition_trace s1).
  { eapply (step_trace Atc9.step); eauto. }
  destruct (cont && negb (halted s1)).
  - intros Hrun. etrans; [exact Hp | eapply IH; eauto].
  - intros [= <- _]. exact Hp.
Qed.

Lemma run_tm_step_unfold (fuel : nat) (m : machine) (s : run_state)
    (d : display) :
  Atc9Gui.run_tm_step (S fuel) m s d =
  if halted s then Some (Finished s d)
  else
    match Atc9.step m s with
    | IndexError => Some (RaisedInStep d)
    | Ok (s', (cont, msg)) =>
        match py_get (transition_trace s') (-1) with
        | IndexError =>
            Some (RaisedAtTrace s'
                    {| output_area := output_area d ++ [render msg +:+ newline];
                       transition_area := transition_area d;
                       verdict_label := verdict_label d;
                       tape_canvas := tape_canvas d |})
        | Ok entry =>
            match update_tape s' with
            | IndexError =>
                Some (RaisedInUpdate s'
                        {| output_area :=
                             output_area d ++ [render msg +:+ newline];
                           transition_area :=
                             transition_area d ++ [entry +:+ newline];
                           verdict_label := verdict_label d;
                           tape_canvas := tape_canvas d |})
            | Ok cells =>
                if cont && negb (halted s')
                then Atc9Gui.run_tm_step fuel m s'
                       {| output_area :=
                            output_area d ++ [render msg +:+ newline];
                          transition_area :=
                            transition_area d ++ [entry +:+ newline];
                          verdict_label := verdict_label d;
                          tape_canvas := cells |}
                else
                  Some (Finished s'
                          {| output_area :=
                               output_area d ++ [render msg +:+ newline];
                             transition_area :=
                               transition_area d ++ [entry +:+ newline];
                             verdict_label := Atc9Gui.verdict_text m s';
                             tape_canvas := cells |})
            end
        end
    end.
Proof. reflexivity. Qed.

(** Once a call has left an entry in the trace, the driver of atc-9.py
    goes the way of the plain loop and ends with a verdict. *)
Lemma gui_follows_run (m : machine) (fuel : nat) :
  forall s d log s' log',
    halted s = false ->
    (forall s1 r, Atc9.step m s = Ok (s1, r) -> transition_trace s1 <> []) ->
    run Atc9.step fuel m s log = Some (Ok (s', log')) ->
    output_area d = map (fun msg => render msg +:+ newline) log ->
    length (transition_area d) = length log ->
    exists d' cells,
      Atc9Gui.run_tm_step fuel m s d = Some (Finished s' d')
      /\ output_area d' = map (fun msg => render msg +:+ newline) log'
      /\ length (transition_area d') = length log'
      /\ last (transition_area d')
         = (fun e => e +:+ newline) <$> last (transition_trace s')
      /\ verdict_label d' = Atc9Gui.verdict_text m s'
      /\ update_tape s' = Ok cells
      /\ tape_canvas d' = cells.
Proof.
  induction fuel as [|fuel IH]; intros s d log s' log' Hh Htrace Hrun Hout Hlen;
    [discriminate|].
  rewrite run_unfold, Hh in Hrun. rewrite run_tm_step_unfold, Hh.
  destruct (Atc9.step m s) as [[s1 [cont msg]]|] eqn:Hstep; [|discriminate].
  pose proof (Htrace s1 _ eq_refl) as Hne.
  destruct (py_get_last _ Hne) as (entry & -> & Hlast).
  destruct (update_tape_total s1) as (cells & Hcells). rewrite Hcells.
  destruct (cont && negb (halted s1)) eqn:Hgo.
  - apply andb_true_iff in Hgo as [_ Hh1%negb_true_iff].
    eapply IH; eauto.
    + intros s2 r Hstep2 Hnil.
      pose proof (step_trace Atc9.step m s1 s2 r (or_intror eq_refl) Hstep2)
        as Hp. rewrite Hnil in Hp. apply prefix_nil_inv in Hp. done.
    + cbn [output_area]. rewrite Hout, map_app. reflexivity.
    + cbn [transition_area]. rewrite !length_app, Hlen. reflexivity.
  - injection Hrun as <- <-. eexists _, cells.
    split; [reflexivity|]. cbn [output_area transition_area verdict_label
                                tape_canvas].
    split; [rewrite Hout, map_app; reflexivity|].
    split; [rewrite !length_app, Hlen; reflexivity|].
    split; [rewrite last_snoc, Hlast; reflexivity|]. auto.
Qed.

(** X15.  The driver of atc-9.py shows the last trace entry after every
    [step()] call.  Started by [simulate_tm_gui], its chain of callbacks
    always ends.  If the first call executes no transition (the step
    limit is not positive, or the start state has no entry for the first
    symbol), the trace is empty, the callback raises [IndexError] at
    [transition_trace[-1]] and no verdict is ever set.  Otherwise it ends
    like the plain loop: the same final engine state, one output line and
    one trace line per call, the tape drawn, and the verdict of the final
    state on the label. *)
Theorem gui_needs_a_first_transition (m : machine) (input : string) :
  exists s log cells0,
    run Atc9.step (S (Z.to_nat (max_steps m))) m (reset m input) []
      = Some (Ok (s, log))
    /\ update_tape (reset m input) = Ok cells0
    /\ (transition_trace s = [] <->
        max_steps m <= 0
        \/ exists symbol,
             tape (reset m input) !! 0%nat = Some symbol
             /\ transitions m !! key (start_state m) symbol = None)
    /\ ((transition_trace s = []
         /\ Atc9Gui.simulate_tm_gui (S (Z.to_nat (max_steps m))) m input
            = Some (RaisedAtTrace s
                      {| output_area :=
                           map (fun msg => render msg +:+ newline) log;
                         transition_area := [];
                         verdict_label := "";
                         tape_canvas := cells0 |}))
        \/ (transition_trace s <> []
            /\ exists d cells,
                 Atc9Gui.simulate_tm_gui (S (Z.to_nat (max_steps m))) m input
                   = Some (Finished s d)
                 /\ output_area d
                    = map (fun msg => render msg +:+ newline) log
                 /\ length (transition_area d) = length log
                 /\ last (transition_area d)
                    = (fun e => e +:+ newline) <$> last (transition_trace s)
                 /\ verdict_label d = Atc9Gui.verdict_text m s
                 /\ update_tape s = Ok cells
                 /\ tape_canvas d = cells)).
Proof.
  set (fuel := Z.to_nat (max_steps m)).
  destruct (run_spec m (fun _ => True) (fun _ _ _ _ _ _ => I) fuel
              (reset m input) [])
    as (s0 & s & cont & msg & log0 & Hrun & _);
    auto using reset_window.
  { simpl. lia. }
  destruct (update_tape_total (reset m input)) as (cells0 & Hcells0).
  exists s, ([] ++ log0 ++ [msg]), cells0.
  split; [exact Hrun|]. split; [exact Hcells0|].
  destruct (step_spec m (reset m input) (reset_window m input))
    as (s1 & [c1 msg1] & Hstep1 & Hc1).
  assert (Hid : Atc9.extend_tape (reset m input) = reset m input).
  { apply extend_tape_id. unfold reset. cbn [head tape].
    rewrite length_app, length_replicate. lia. }
  pose proof Hrun as Hrun1.
  rewrite run_unfold in Hrun1. cbn [halted reset] in Hrun1.
  change (Atc9.step m {| tape := py_list input ++ replicate 50 blank;
                         head := 0; current_state := start_state m;
                         steps := 0; transition_trace := [];
                         halted := false |})
    with (Atc9.step m (reset m input)) in Hrun1.
  rewrite Hstep1 in Hrun1.
  unfold Atc9Gui.simulate_tm_gui. cbv zeta. rewrite Hcells0.
  inversion Hc1; subst.
  - (* the step limit is not positive *)
    cbn [andb] in Hrun1. injection Hrun1 as <- Hlog.
    split; [split; [intros _; left; simpl in *; lia | reflexivity]|].
    left. split; [reflexivity|].
    rewrite run_tm_step_unfold. cbn [halted reset].
    change (Atc9.step m _) with (Atc9.step m (reset m input)).
    rewrite Hstep1, <- Hlog. reflexivity.
  - discriminate.
  - (* the first lookup misses *)
    cbn [andb] in Hrun1. injection Hrun1 as <- Hlog.
    rewrite Hid in *.
    split; [split; [intros _; right; eauto | reflexivity]|].
    left. split; [reflexivity|].
    rewrite run_tm_step_unfold. cbn [halted reset].
    change (Atc9.step m _) with (Atc9.step m (reset m input)).
    rewrite Hstep1, <- Hlog. reflexivity.
  - (* the first call executes a transition *)
    rewrite Hid in *.
    match goal with
    | Hlt : steps (reset m input) < max_steps m,
      Hsym1 : tape (reset m input) !! _ = Some symbol,
      Hlook1 : transitions m !! _ = Some _ |- _ =>
        change (0 < max_steps m) in Hlt;
        change (tape (reset m input) !! 0%nat = Some symbol) in Hsym1;
        change (transitions m !! key (start_state m) symbol
                = Some (next_state, write_symbol, direction)) in Hlook1;
        rename Hlt into Hpos; rename Hsym1 into Hsym0;
        rename Hlook1 into Hlook0
    end.
    assert (Hne : transition_trace s <> []).
    { intros Hnil.
      assert (Hp : [trace_entry (start_state m) symbol next_state
                                write_symbol direction]
                   `prefix_of` transition_trace s).
      { destruct (negb (terminal m next_state) && _) in Hrun1.
        - apply run_trace_prefix in Hrun1. exact Hrun1.
        - injection Hrun1 as <- _. reflexivity. }
      rewrite Hnil in Hp. apply prefix_nil_inv in Hp. discriminate. }
    split.
    { split; [done|]. intros [Hmax | (sym & Hsym & Hmiss)].
      - lia.
      - congruence. }
    right. split; [exact Hne|].
    eapply gui_follows_run; eauto.
    intros s2 r Hstep2. rewrite Hstep1 in Hstep2.
    injection Hstep2 as <- _. discriminate.
Qed.

Example gui_on_the_flip_machine :
  Atc9Gui.simulate_tm_gui 1001 example_tm "1"
  = Some (RaisedAtTrace (halt (reset example_tm "1"))
            {| output_area :=
                 [render (MsgNoTransition "q0" "1") +:+ newline];
               transition_area := [];
               verdict_label := "";
               tape_canvas :=
                 match update_tape (reset example_tm "1") with
                 | Ok cells => cells
                 | IndexError => []
                 end |})
  /\ exists s d,
       Atc9Gui.simulate_tm_gui 1001 example_tm "0" = Some (Finished s d)
       /\ verdict_label d = Atc9Gui.verdict_text example_tm s
       /\ is_accepted example_tm s = true
       /\ transition_area d
          = ["(q0, 0) → (q1, 1, R)" +:+ newline;
             "(q1, _) → (halt, _, N)" +:+ newline].
Proof.
  split; [vm_compute; reflexivity|].
  eexists _, _. split; [vm_compute; reflexivity|]. repeat split.
Qed.

(** ** The example machines *)

Lemma py_list_ones (n : nat) : py_list (ones n) = replicate n "1".
Proof.
  induction n as [|n IH]; [reflexivity|].
  change (ones (S n)) with (String "1" (ones n)).
  rewrite py_list_cons by (destruct n; reflexivity).
  rewrite IH. reflexivity.
Qed.

Lemma ones_length (n : nat) : String.length (ones n) = n.
Proof. induction n as [|n IH]; simpl; congruence. Qed.

Lemma ones_tape_lookup (n j k : nat) (sym : string) :
  (replicate n "1" ++ replicate j blank) !! k = Some sym ->
  (k < n)%nat /\ sym = "1" \/ (n <= k)%nat /\ sym = blank.
Proof.
  intros Hk. destruct (decide (k < n)%nat) as [Hlt|Hge].
  - rewrite lookup_app_l in Hk by (rewrite length_replicate; lia).
    apply lookup_replicate in Hk as [-> _]. auto.
  - rewrite lookup_app_r in Hk by (rewrite length_replicate; lia).
    apply lookup_replicate in Hk as [-> _]. right. split; [lia | reflexivity].
Qed.

Lemma step_case_on_tape (m : machine) (s s' : run_state) (r : bool * message) :
  0 <= head s < Z.of_nat (length (tape s)) ->
  halted s = false ->
  steps s < max_steps m ->
  step_case m s s' r ->
  exists symbol,
    tape s !! Z.to_nat (head s) = Some symbol
    /\ match transitions m !! key (current_state s) symbol with
       | None => s' = halt s
       | Some (next_state, write_symbol, direction) =>
           tape s' = <[Z.to_nat (head s) := write_symbol]> (tape s)
           /\ head s' = move direction (head s)
           /\ current_state s' = next_state
           /\ steps s' = steps s + 1
           /\ halted s' = terminal m next_state
       end.
Proof.
  intros Hb Hh Hlim Hc. pose proof (extend_tape_id s Hb) as Hid.
  inversion Hc; subst; try lia; try congruence; rewrite Hid in *.
  - exists symbol. split; [assumption|].
    match goal with Hmiss : transitions m !! _ = None |- _ => rewrite Hmiss end.
    reflexivity.
  - exists symbol. split; [assumption|].
    match goal with
    | Hhit : transitions m !! _ = Some _ |- _ => rewrite Hhit
    end.
    repeat split.
Qed.

Lemma even_succ_state (k : nat) :
  (if Nat.even (S k) then "even" else "odd")
  = (if Nat.even k then "odd" else "even").
Proof. rewrite Nat.even_succ, <- Nat.negb_even. destruct (Nat.even k); reflexivity. Qed.

(** X16.  [Even number of 1s] of atc-9.py decides the parity of a unary
    input that fits the step limit: on [n < 1000] ones the run ends after
    [n + 1] executed steps with the tape as [reset] left it, accepted when
    [n] is even and rejected when [n] is odd. *)
Theorem even_number_of_1s_decides_parity (n : nat) :
  (n < 1000)%nat ->
  exists s log,
    run Atc9.step 1001 even_number_of_1s (reset even_number_of_1s (ones n)) []
      = Some (Ok (s, log))
    /\ halted s = true
    /\ steps s = Z.of_nat n + 1
    /\ tape s = tape (reset even_number_of_1s (ones n))
    /\ final_verdict even_number_of_1s s
       = (if Nat.even n then Accepted else Rejected)
    /\ Atc9Gui.verdict_text even_number_of_1s s
       = (if Nat.even n then "✅ Accepted" else "❌ Rejected").
Proof.
  intros Hn.
  set (m := even_number_of_1s).
  set (T0 := replicate n "1" ++ replicate 50 blank).
  set (P := fun s : run_state =>
    tape s = T0
    /\ ((halted s = false /\ 0 <= head s <= Z.of_nat n /\ steps s = head s
         /\ current_state s
            = (if Nat.even (Z.to_nat (head s)) then "even" else "odd"))
        \/ (halted s = true /\ steps s = Z.of_nat n + 1
            /\ current_state s = (if Nat.even n then "halt" else "reject")))).
  assert (HlenT : length T0 = (n + 50)%nat).
  { unfold T0. rewrite length_app, !length_replicate. reflexivity. }
  assert (Heven1 : transitions m !! key "even" "1" = Some ("odd", "1", "R"))
    by (vm_compute; reflexivity).
  assert (Hodd1 : transitions m !! key "odd" "1" = Some ("even", "1", "R"))
    by (vm_compute; reflexivity).
  assert (Heven0 : transitions m !! key "even" blank
                   = Some ("halt", "_", "N"))
    by (vm_compute; reflexivity).
  assert (Hodd0 : transitions m !! key "odd" blank
                  = Some ("reject", "_", "N"))
    by (vm_compute; reflexivity).
  assert (HP : forall s s' r, head_in_window s -> P s ->
                              step_case m s s' r -> P s').
  { intros s s' r _ [Ht Hs] Hc. destruct Hs as [(Hh & Hhead & Hsteps & Hst) | Hdone].
    - destruct (step_case_on_tape m s s' r) as (sym & Hsym & Hnext); auto.
      { rewrite Ht, HlenT. lia. }
      { simpl. lia. }
      rewrite Ht in Hsym. apply ones_tape_lookup in Hsym.
      rewrite Hst, Ht in Hnext.
      assert (Hmove : forall d hd, d = "R" -> move d hd = hd + 1)
        by (intros d hd ->; reflexivity).
      assert (Hstay : forall d hd, d = "N" -> move d hd = hd)
        by (intros d hd ->; reflexivity).
      destruct Hsym as [[Hlt ->] | [Hge ->]].
      + (* a one under the head: go right and flip the parity *)
        assert (Hid : <[Z.to_nat (head s) := "1"]> T0 = T0).
        { apply list_insert_id. unfold T0.
          rewrite lookup_app_l by (rewrite length_replicate; lia).
          apply lookup_replicate. split; [reflexivity | lia]. }
        assert (Hpar : Nat.even (Z.to_nat (head s + 1))
                       = negb (Nat.even (Z.to_nat (head s)))).
        { replace (Z.to_nat (head s + 1)) with (S (Z.to_nat (head s))) by lia.
          rewrite Nat.even_succ, <- Nat.negb_even. reflexivity. }
        destruct (Nat.even (Z.to_nat (head s))); cbv iota in Hnext;
          [ rewrite Heven1 in Hnext | rewrite Hodd1 in Hnext ];
          destruct Hnext as (Htape & Hhd & Hcur & Hstp & Hhalt);
          rewrite (Hmove "R" _ eq_refl) in Hhd;
          (split; [rewrite Htape; exact Hid|]); left;
          rewrite Hhd, Hcur, Hstp, Hhalt, Hpar;
          (split; [reflexivity|]); (split; [lia|]);
          (split; [lia | reflexivity]).
      + (* the blank behind the ones: halt *)
        assert (Hend : head s = Z.of_nat n) by lia.
        assert (Hid : <[n := blank]> T0 = T0).
        { apply list_insert_id. unfold T0.
          rewrite lookup_app_r by (rewrite length_replicate; lia).
          apply lookup_replicate. split; [reflexivity|].
          rewrite length_replicate. lia. }
        rewrite Hend, Nat2Z.id in Hnext.
        destruct (Nat.even n); cbv iota in Hnext;
          [ rewrite Heven0 in Hnext | rewrite Hodd0 in Hnext ];
          destruct Hnext as (Htape & Hhd & Hcur & Hstp & Hhalt);
          (split; [rewrite Htape; exact Hid|]); right;
          rewrite Hcur, Hstp, Hhalt;
          (split; [reflexivity|]); (split; [lia | reflexivity]).
    - split; [|right]; inversion Hc; subst; simpl; try tauto; try congruence;
        destruct Hdone as (Hh & _); congruence. }
  destruct (run_spec m P HP 1000 (reset m (ones n)) [])
    as (s0 & s & cont & msg & log0 & Hrun & _ & _ & _ & _ & Hh & _ & Ht & Hs).
  { apply reset_window. }
  { split; [unfold reset, T0; cbn [tape]; rewrite py_list_ones; reflexivity|].
    left. simpl. repeat split; lia. }
  { reflexivity. }
  { simpl. lia. }
  exists s, ([] ++ log0 ++ [msg]). split; [exact Hrun|].
  destruct Hs as [(Hh' & _) | (_ & Hsteps & Hst)]; [congruence|].
  split; [exact Hh|]. split; [exact Hsteps|].
  split; [rewrite Ht; unfold reset, T0; cbn [tape]; rewrite py_list_ones;
          reflexivity|].
  unfold final_verdict, Atc9Gui.verdict_text, is_accepted, is_rejected.
  cbn [current_state]. rewrite Hst.
  destruct (Nat.even n); split; reflexivity.
Qed.

Lemma even_number_of_1s_witness :
  exists s log,
    run Atc9.step 1001 even_number_of_1s (reset even_number_of_1s (ones 3)) []
      = Some (Ok (s, log))
    /\ halted s = true
    /\ steps s = Z.of_nat 3 + 1
    /\ tape s = tape (reset even_number_of_1s (ones 3))
    /\ final_verdict even_number_of_1s s = Rejected
    /\ Atc9Gui.verdict_text even_number_of_1s s = "❌ Rejected".
Proof.
  apply (even_number_of_1s_decides_parity 3). lia.
Defined.

Lemma rstrip_ones (k : nat) : rstrip "_" (ones k) = ones k.
Proof.
  induction k as [|k IH]; [reflexivity|].
  cbn [ones rstrip]. rewrite IH. destruct k; reflexivity.
Qed.

Lemma strip_blank_ones (k : nat) : strip_blank (ones k) = ones k.
Proof.
  unfold strip_blank. destruct k; [reflexivity|].
  change (rstrip "_" (ones (S k)) = ones (S k)). apply rstrip_ones.
Qed.

Lemma ones_tape_after_write (n : nat) :
  <[n := "1"]> (replicate n "1" ++ replicate 50 blank)
  = replicate (S n) "1" ++ replicate 49 blank.
Proof.
  rewrite insert_app_r_alt by (rewrite length_replicate; lia).
  rewrite length_replicate, Nat.sub_diag.
  change (<[0%nat := "1"]> (replicate 50 blank)) with ("1" :: replicate 49 blank).
  rewrite (replicate_S_end n "1"), <- app_assoc. reflexivity.
Qed.

(** X17.  [Unary Increment] of atc-9.py appends a one: on [n < 1000]
    ones the run ends after [n + 1] executed steps in [halt], with the
    first [n + 1] cells holding ones and the rest blanks, so that the
    tape reads as [n + 1] ones; the driver's verdict is [Accepted]. *)
Theorem unary_increment_appends_a_one (n : nat) :
  (n < 1000)%nat ->
  exists s log,
    run Atc9.step 1001 unary_increment (reset unary_increment (ones n)) []
      = Some (Ok (s, log))
    /\ halted s = true
    /\ steps s = Z.of_nat n + 1
    /\ current_state s = "halt"
    /\ tape s = replicate (S n) "1" ++ replicate 49 blank
    /\ trimmed_tape (tape s) = ones (S n)
    /\ final_verdict unary_increment s = Accepted.
Proof.
  intros Hn.
  set (m := unary_increment).
  set (T0 := replicate n "1" ++ replicate 50 blank).
  set (P := fun s : run_state =>
    (halted s = false /\ tape s = T0 /\ 0 <= head s <= Z.of_nat n
     /\ steps s = head s /\ current_state s = "q0")
    \/ (halted s = true /\ tape s = <[n := "1"]> T0
        /\ steps s = Z.of_nat n + 1 /\ current_state s = "halt")).
  assert (HlenT : length T0 = (n + 50)%nat).
  { unfold T0. rewrite length_app, !length_replicate. reflexivity. }
  assert (Hq1 : transitions m !! key "q0" "1" = Some ("q0", "1", "R"))
    by (vm_compute; reflexivity).
  assert (Hq0 : transitions m !! key "q0" blank = Some ("halt", "1", "N"))
    by (vm_compute; reflexivity).
  assert (HP : forall s s' r, head_in_window s -> P s ->
                              step_case m s s' r -> P s').
  { intros s s' r _ [(Hh & Ht & Hhead & Hsteps & Hst) | Hdone] Hc.
    - destruct (step_case_on_tape m s s' r) as (sym & Hsym & Hnext); auto.
      { rewrite Ht, HlenT. lia. }
      { simpl. lia. }
      rewrite Ht in Hsym. apply ones_tape_lookup in Hsym.
      rewrite Hst, Ht in Hnext.
      destruct Hsym as [[Hlt ->] | [Hge ->]].
      + rewrite Hq1 in Hnext.
        destruct Hnext as (Htape & Hhd & Hcur & Hstp & Hhalt).
        left. rewrite Hhalt, Htape, Hhd, Hcur, Hstp.
        change (move "R" (head s)) with (head s + 1).
        split; [reflexivity|]. split; [|repeat split; lia].
        apply list_insert_id. unfold T0.
        rewrite lookup_app_l by (rewrite length_replicate; lia).
        apply lookup_replicate. split; [reflexivity | lia].
      + rewrite Hq0 in Hnext.
        destruct Hnext as (Htape & Hhd & Hcur & Hstp & Hhalt).
        right. rewrite Hhalt, Htape, Hcur, Hstp.
        replace (Z.to_nat (head s)) with n by lia.
        repeat split. lia.
    - right. destruct Hdone as (Hh & Hrest).
      inversion Hc; subst; simpl; try tauto; congruence. }
  destruct (run_spec m P HP 1000 (reset m (ones n)) [])
    as (s0 & s & cont & msg & log0 & Hrun & _ & _ & _ & _ & Hh & _ & Hs).
  { apply reset_window. }
  { left. unfold reset, T0. cbn [tape halted head steps current_state].
    rewrite py_list_ones. repeat split; lia. }
  { reflexivity. }
  { simpl. lia. }
  exists s, ([] ++ log0 ++ [msg]). split; [exact Hrun|].
  destruct Hs as [(Hh' & _) | (_ & Ht & Hsteps & Hst)]; [congruence|].
  unfold T0 in Ht. rewrite ones_tape_after_write in Ht.
  split; [exact Hh|]. split; [exact Hsteps|]. split; [exact Hst|].
  split; [exact Ht|]. split.
  - rewrite Ht. unfold trimmed_tape.
    rewrite py_join_app, <- py_list_ones, py_join_py_list.
    rewrite strip_blank_app_blanks. apply strip_blank_ones.
  - unfold final_verdict, is_accepted. rewrite Hst. reflexivity.
Qed.

Lemma unary_increment_appends_a_one_witness :
  exists s log,
    run Atc9.step 1001 unary_increment (reset unary_increment (ones 3)) []
      = Some (Ok (s, log))
    /\ halted s = true
    /\ steps s = Z.of_nat 3 + 1
    /\ current_state s = "halt"
    /\ tape s = replicate 4 "1" ++ replicate 49 blank
    /\ trimmed_tape (tape s) = "1111"
    /\ final_verdict unary_increment s = Accepted.
Proof.
  apply (unary_increment_appends_a_one 3). lia.
Defined.

(** ** The machine that never halts, on the two engines *)

Lemma halting_problem_lookup (limit : Z) (symbol : string) :
  symbol = "0" \/ symbol = "1" \/ symbol = "_" ->
  transitions (halting_problem limit) !! key "simulate" symbol
  = Some ("simulate", symbol, "R").
Proof. intros [-> | [-> | ->]]; vm_compute; reflexivity. Qed.

Lemma py_get_lookup {A} (l : list A) (i : Z) (x : A) :
  0 <= i -> l !! Z.to_nat i = Some x -> py_get l i = Ok x.
Proof.
  intros Hi Hx. pose proof (lookup_lt_Some _ _ _ Hx) as Hlt.
  destruct (py_get_in_bounds l i) as (y & Hy & Hy'); [lia|]. congruence.
Qed.

Lemma extend_tape_nonneg (s : run_state) :
  0 <= head s ->
  head (Atc9.extend_tape s) = head s
  /\ tape (Atc9.extend_tape s)
     = (if bool_decide (Z.of_nat (length (tape s)) <= head s)
        then tape s ++ [blank] else tape s).
Proof.
  intros Hh. unfold Atc9.extend_tape.
  rewrite (bool_decide_eq_false_2 (head s < 0)) by lia. split; reflexivity.
Qed.

(** X5.  On atc-9.py's engine the [Halting Problem] machine of atc-6.py
    ends on the step limit, whatever the limit and whatever input over
    [0], [1], [_] it is given: exactly [max_steps] steps are executed, the
    head is [max_steps] cells to the right, the tape holds the input
    followed by blanks only, and the verdict is [StepLimitExceeded]. *)
Theorem halting_problem_runs_to_the_limit (limit : Z) (input : string) :
  0 <= limit ->
  Forall (fun symbol => symbol = "0" \/ symbol = "1" \/ symbol = "_")
         (py_list input) ->
  exists s log,
    run Atc9.step (S (Z.to_nat limit)) (halting_problem limit)
        (reset (halting_problem limit) input) [] = Some (Ok (s, log))
    /\ last log = Some (MsgStepLimit limit)
    /\ steps s = limit
    /\ head s = limit
    /\ (exists j, tape s = py_list input ++ replicate j blank)
    /\ trimmed_tape (tape s) = strip_blank input
    /\ final_verdict (halting_problem limit) s = StepLimitExceeded.
Proof.
  intros Hlimit Hinput.
  set (m := halting_problem limit).
  set (P := fun s : run_state =>
    (exists j, tape s = py_list input ++ replicate j blank)
    /\ 0 <= head s <= Z.of_nat (length (tape s))
    /\ head s = steps s
    /\ current_state s = "simulate"
    /\ steps s <= limit).
  assert (Hcases : forall s s' r, P s -> step_case m s s' r ->
            P s' /\ (halted s = false -> halted s' = true ->
                     steps s' = limit /\ snd r = MsgStepLimit limit)).
  { intros s s' r ((j & Ht) & Hhead & Hsteps & Hst & Hle) Hc.
    destruct (extend_tape_nonneg s) as (Hhe & Hte); [lia|].
    assert (Hb : 0 <= head (Atc9.extend_tape s)
                 < Z.of_nat (length (tape (Atc9.extend_tape s)))).
    { apply extend_tape_in_bounds. unfold head_in_window. lia. }
    assert (Halpha : Forall (fun symbol => symbol = "0" \/ symbol = "1"
                                           \/ symbol = "_")
                            (tape (Atc9.extend_tape s))).
    { assert (Hts : Forall (fun symbol => symbol = "0" \/ symbol = "1"
                                          \/ symbol = "_") (tape s)).
      { rewrite Ht, Forall_app. split; [exact Hinput|].
        apply Forall_replicate. auto. }
      rewrite Hte. case_bool_decide; [|exact Hts].
      apply Forall_app. split; [exact Hts|].
      constructor; [auto | constructor]. }
    assert (Hshape : exists j', tape (Atc9.extend_tape s)
                                = py_list input ++ replicate j' blank).
    { rewrite Hte. case_bool_decide; [|exists j; exact Ht].
      exists (S j). rewrite Ht, replicate_S_end, app_assoc. reflexivity. }
    assert (Hhit : forall symbol,
              tape (Atc9.extend_tape s) !! Z.to_nat (head (Atc9.extend_tape s))
                = Some symbol ->
              transitions m !! key (current_state s) symbol
              = Some ("simulate", symbol, "R")).
    { intros symbol Hsym. rewrite Hst. apply halting_problem_lookup.
      rewrite Forall_lookup in Halpha. eapply Halpha; eauto. }
    inversion Hc; subst; cbn [snd].
    - split; [|intros _ _; split; [simpl in *; lia | reflexivity]].
      unfold P. simpl. eauto 10.
    - split; [|congruence]. unfold P. eauto 10.
    - match goal with
      | Hsym : _ !! _ = Some symbol, Hmiss : _ !! _ = None |- _ =>
          rewrite (Hhit symbol Hsym) in Hmiss; discriminate
      end.
    - match goal with
      | Hsym : _ !! _ = Some symbol, Hlook : _ !! _ = Some (_, _, _) |- _ =>
          rewrite (Hhit symbol Hsym) in Hlook;
          injection Hlook as <- <- <-;
          rewrite (list_insert_id _ _ _ Hsym)
      end.
      match goal with
      | Hlt : steps s < max_steps m |- _ => change (steps s < limit) in Hlt
      end.
      split; [|simpl; discriminate].
      unfold P. cbn [tape head steps current_state].
      change (move "R" (head (Atc9.extend_tape s)))
        with (head (Atc9.extend_tape s) + 1).
      split; [exact Hshape|]. repeat split; lia. }
  assert (HP : forall s s' r, head_in_window s -> P s ->
                              step_case m s s' r -> P s').
  { intros s s' r _ Hp Hc. exact (proj1 (Hcases s s' r Hp Hc)). }
  destruct (run_spec m P HP (Z.to_nat limit) (reset m input) [])
    as (s0 & s & cont & msg & log0 & Hrun & _ & Hp0 & Hh0 & Hc & Hh & _ & Hp).
  { apply reset_window. }
  { unfold P, reset. cbn [tape head steps current_state].
    split; [eauto|]. repeat split; lia. }
  { reflexivity. }
  { simpl. lia. }
  destruct (proj2 (Hcases s0 s _ Hp0 Hc) Hh0 Hh) as (Hsteps & Hmsg).
  cbn [snd] in Hmsg. subst msg.
  destruct Hp as ((j & Ht) & _ & Hhead & Hst & _).
  exists s, ([] ++ log0 ++ [MsgStepLimit limit]). split; [exact Hrun|].
  split; [apply last_snoc|]. split; [exact Hsteps|].
  split; [lia|]. split; [eauto|]. split.
  - rewrite Ht. unfold trimmed_tape.
    rewrite py_join_app, py_join_py_list. apply strip_blank_app_blanks.
  - unfold final_verdict, is_accepted, is_rejected. rewrite Hst.
    cbn [accept_state reject_state m halting_problem max_steps].
    rewrite (bool_decide_eq_true_2 (limit <= steps s)) by lia. reflexivity.
Qed.

Lemma halting_problem_runs_to_the_limit_witness :
  exists s log,
    run Atc9.step (S (Z.to_nat 7)) (halting_problem 7)
        (reset (halting_problem 7) "01_") [] = Some (Ok (s, log))
    /\ last log = Some (MsgStepLimit 7)
    /\ steps s = 7
    /\ head s = 7
    /\ (exists j, tape s = py_list "01_" ++ replicate j blank)
    /\ trimmed_tape (tape s) = strip_blank "01_"
    /\ final_verdict (halting_problem 7) s = StepLimitExceeded.
Proof.
  apply (halting_problem_runs_to_the_limit 7 "01_").
  - lia.
  - cbn [py_list]. repeat (apply Forall_cons_2; [auto|]). apply Forall_nil_2.
Defined.

(** X4.  On atc-6.py's own engine the same machine never gets that far
    when the input is short: there is no boundary extension, so after
    [len(input) + 50] executed steps the head is one cell past the tape
    and the next [step()] raises [IndexError].  With the limit of 1000
    that the driver passes, every input over [0], [1], [_] shorter than
    950 characters ends this way. *)
Theorem atc6_halting_problem_runs_off_the_tape (limit : Z) (input : string)
    (fuel : nat) :
  Forall (fun symbol => symbol = "0" \/ symbol = "1" \/ symbol = "_")
         (py_list input) ->
  Z.of_nat (String.length input) + 50 < limit ->
  (String.length input + 50 < fuel)%nat ->
  run Atc6.step fuel (halting_problem limit)
      (reset (halting_problem limit) input) [] = Some IndexError.
Proof.
  intros Hinput Hlimit Hfuel.
  set (m := halting_problem limit).
  assert (Hscan : forall k s log f,
            Forall (fun symbol => symbol = "0" \/ symbol = "1"
                                  \/ symbol = "_") (tape s) ->
            0 <= head s ->
            Z.of_nat (length (tape s)) = head s + Z.of_nat k ->
            current_state s = "simulate" ->
            halted s = false ->
            steps s + Z.of_nat k < limit ->
            (k < f)%nat ->
            run Atc6.step f m s log = Some IndexError).
  { induction k as [|k IH]; intros s log f Halpha Hhead Hlen Hst Hh Hlim Hf;
      (destruct f as [|f]; [lia|]); rewrite run_unfold, Hh;
      unfold Atc6.step, guarded;
      rewrite (bool_decide_eq_false_2 (max_steps m <= steps s))
        by (simpl; lia);
      rewrite Hh.
    - unfold transition_phase.
      rewrite (proj2 (py_get_error (tape s) (head s))) by lia. reflexivity.
    - destruct (lookup_lt_is_Some_2 (tape s) (Z.to_nat (head s)))
        as [symbol Hsym]; [lia|].
      assert (Hsymbol : symbol = "0" \/ symbol = "1" \/ symbol = "_").
      { rewrite Forall_lookup in Halpha. eapply Halpha; eauto. }
      erewrite (transition_phase_hit m s symbol "simulate" symbol "R");
        [ | apply py_get_lookup; [lia | exact Hsym]
          | rewrite Hst; apply halting_problem_lookup; exact Hsymbol
          | apply py_set_in_bounds; lia ].
      rewrite (list_insert_id _ _ _ Hsym).
      change (terminal m "simulate") with false. cbv iota. rewrite Hh.
      cbn [negb andb halted].
      apply (IH _ _ f); cbn [tape head current_state halted steps];
        try assumption; try reflexivity; try lia.
      change (move "R" (head s)) with (head s + 1). lia.
      change (move "R" (head s)) with (head s + 1). lia. }
  apply (Hscan (String.length input + 50)%nat); try reflexivity.
  - unfold reset. cbn [tape]. rewrite Forall_app. split; [exact Hinput|].
    apply Forall_replicate. auto.
  - unfold reset. cbn [tape head].
    rewrite length_app, py_list_length, length_replicate; [lia|].
    eapply Forall_impl; [exact Hinput|].
    intros symbol [-> | [-> | ->]]; reflexivity.
  - cbn [steps reset]. lia.
  - exact Hfuel.
Qed.

Lemma atc6_halting_problem_witness :
  run Atc6.step 1001 (halting_problem 1000)
      (reset (halting_problem 1000) "0110") [] = Some IndexError.
Proof.
  apply (atc6_halting_problem_runs_off_the_tape 1000 "0110" 1001).
  - cbn [py_list]. repeat (apply Forall_cons_2; [auto|]). apply Forall_nil_2.
  - simpl. lia.
  - simpl. lia.
Defined.

(** ** The palindrome checker *)

Lemma cells_mid {A} (x y : A) (W B : list A) (h : nat) :
  (h < length W)%nat ->
  (x :: W ++ y :: B) !! S h = W !! h.
Proof. intros Hh. simpl. apply lookup_app_l. lia. Qed.

Lemma cells_last {A} (x y : A) (W B : list A) (n : nat) :
  length W = n -> (x :: W ++ y :: B) !! S n = Some y.
Proof.
  intros <-. simpl. rewrite lookup_app_r by lia.
  rewrite Nat.sub_diag. reflexivity.
Qed.

Lemma cells_after {A} (x y : A) (W B : list A) (n : nat) :
  length W = n -> (x :: W ++ y :: B) !! S (S n) = B !! 0%nat.
Proof.
  intros <-. simpl. rewrite lookup_app_r by lia.
  replace (S (length W) - length W)%nat with 1%nat by lia. reflexivity.
Qed.

Lemma cells_set_last {A} (x y z : A) (W B : list A) (n : nat) :
  length W = n -> <[S n := z]> (x :: W ++ y :: B) = x :: W ++ z :: B.
Proof.
  intros <-. simpl. f_equal. rewrite insert_app_r_alt by lia.
  rewrite Nat.sub_diag. reflexivity.
Qed.

Lemma cells_set_second {A} (x y z : A) (W B : list A) :
  (1 <= length W)%nat ->
  <[1%nat := z]> (x :: W ++ y :: B) = x :: <[0%nat := z]> W ++ y :: B.
Proof. destruct W; simpl; [lia | reflexivity]. Qed.

Lemma move_R (hd : Z) : move "R" hd = hd + 1.
Proof. reflexivity. Qed.

Lemma move_L (hd : Z) : move "L" hd = hd - 1.
Proof. reflexivity. Qed.

Lemma move_N (hd : Z) : move "N" hd = hd.
Proof. reflexivity. Qed.

Ltac eval_lookup H :=
  match type of H with
  | context [transitions ?m !! key ?q ?c] =>
      let e := eval vm_compute in (transitions m !! key q c) in
      change (transitions m !! key q c) with e in H
  end;
  cbv iota beta in H.

Ltac finish_step H :=
  let Htape := fresh "Htape" in
  let Hhd := fresh "Hhd" in
  let Hcur := fresh "Hcur" in
  let Hstp := fresh "Hstp" in
  let Hhalt := fresh "Hhalt" in
  destruct H as (Htape & Hhd & Hcur & Hstp & Hhalt);
  match type of Hhalt with
  | _ = ?t => let e := eval vm_compute in t in change t with e in Hhalt
  end;
  rewrite ?move_R, ?move_L, ?move_N in Hhd;
  rewrite ?Hhalt, ?Hcur, ?Hhd, ?Htape, ?Hstp.

(** X18.  [Binary Palindrome Checker] of atc-9.py compares only the two
    ends of its input.  On an input of at least two characters over [0]
    and [1] (at most 332 of them, so that the step limit is not reached)
    the run ends [Accepted] when the first and the last character are
    equal, whatever lies between them, and otherwise halts without a
    transition; it never ends [Rejected]. *)
Theorem palindrome_checker_compares_the_ends (a b w : string) :
  a = "0" \/ a = "1" ->
  b = "0" \/ b = "1" ->
  Forall (fun c => c = "0" \/ c = "1") (py_list w) ->
  (String.length w <= 330)%nat ->
  exists s log,
    run Atc9.step 1001 binary_palindrome_checker
        (reset binary_palindrome_checker (a +:+ w +:+ b)) []
      = Some (Ok (s, log))
    /\ halted s = true
    /\ final_verdict binary_palindrome_checker s
       = (if bool_decide (a = b) then Accepted else StuckNoTransition).
Proof.
  intros Ha Hb Hw Hlen.
  set (m := binary_palindrome_checker).
  assert (Hone : Forall (fun c => String.length c = 1%nat) (py_list w)).
  { eapply Forall_impl; [exact Hw|]. intros c [-> | ->]; reflexivity. }
  assert (Hcb : clean_start b = true)
    by (destruct Hb as [-> | ->]; reflexivity).
  assert (Hcwb : clean_start (w +:+ b) = true).
  { destruct w as [|d r]; [exact Hcb|].
    destruct (py_list_head d r) as (k & more & Hhd).
    rewrite Hhd in Hw. inversion Hw as [|? ? Hd _]; subst.
    destruct Hd as [Hd | Hd]; injection Hd as -> _; reflexivity. }
  remember (py_list w) as W eqn:HW.
  remember (length W) as n eqn:Hn.
  symmetry in Hn.
  set (B := replicate 50 blank).
  assert (Hn330 : (n <= 330)%nat).
  { rewrite <- Hn, HW, py_list_length; [exact Hlen|].
    rewrite <- HW. exact Hone. }
  set (scan := fun c : string => if bool_decide (c = "0") then "q1" else "q2").
  set (back := fun c : string => if bool_decide (c = "0") then "q3" else "q4").
  set (w0 := default "0" (W !! 0%nat)).
  set (phase := fun (s : run_state) (st : string) (h : nat)
                    (T : list string) (k : nat) =>
     halted s = false /\ current_state s = st /\ head s = Z.of_nat h
     /\ tape s = T /\ steps s = Z.of_nat k).
  set (P := fun s : run_state =>
       phase s "q0" 0%nat (a :: W ++ b :: B) 0%nat
    \/ (exists h, (1 <= h <= S (S n))%nat
                  /\ phase s (scan a) h ("X" :: W ++ b :: B) h)
    \/ phase s (back a) (S n) ("X" :: W ++ b :: B) (n + 3)%nat
    \/ (a = b /\ exists h, (h <= n)%nat
                  /\ phase s "q5" h ("X" :: W ++ "X" :: B) (2 * n + 4 - h)%nat)
    \/ (a = b /\ phase s "q0" 1%nat ("X" :: W ++ "X" :: B) (2 * n + 5)%nat)
    \/ (a = b /\ (1 <= n)%nat
        /\ exists h, (2 <= h <= S (S n))%nat
             /\ phase s (scan w0) h ("X" :: <[0%nat := "X"]> W ++ "X" :: B)
                      (2 * n + 4 + h)%nat)
    \/ (a = b /\ (1 <= n)%nat
        /\ phase s (back w0) (S n) ("X" :: <[0%nat := "X"]> W ++ "X" :: B)
                 (3 * n + 7)%nat)
    \/ (halted s = true /\ a = b /\ current_state s = "halt")
    \/ (halted s = true /\ a <> b /\ current_state s = back a
        /\ steps s < 1000)).
  assert (HlenT : forall x y W', length W' = n ->
            length (x :: W' ++ y :: B) = (n + 52)%nat).
  { intros x y W' HW'. cbn [length]. rewrite length_app. cbn [length].
    unfold B. rewrite length_replicate. lia. }
  assert (Hstep : forall s s' r st h T k,
            phase s st h T k -> (h < length T)%nat -> (k < 1000)%nat ->
            step_case m s s' r ->
            exists sym,
              T !! h = Some sym
              /\ match transitions m !! key st sym with
                 | None => s' = halt s
                 | Some (nxt, wr, d) =>
                     tape s' = <[h := wr]> T
                     /\ head s' = move d (Z.of_nat h)
                     /\ current_state s' = nxt
                     /\ steps s' = Z.of_nat (S k)
                     /\ halted s' = terminal m nxt
                 end).
  { intros s s' r st h T k (Hh & Hst & Hhd & Ht & Hk) HhT Hk1000 Hc.
    destruct (step_case_on_tape m s s' r) as (sym & Hsym & Hnext); auto.
    - rewrite Hhd, Ht. lia.
    - rewrite Hk. simpl. lia.
    - exists sym. rewrite Hhd, Nat2Z.id, Ht in Hsym. split; [exact Hsym|].
      rewrite Hst, Ht, Hhd, Nat2Z.id, Hk in Hnext.
      destruct (transitions m !! key st sym) as [[[nxt wr] d]|]; [|exact Hnext].
      replace (Z.of_nat (S k)) with (Z.of_nat k + 1) by lia. exact Hnext. }
  assert (HB0 : B !! 0%nat = Some blank) by reflexivity.
  assert (HP : forall s s' r, head_in_window s -> P s ->
                              step_case m s s' r -> P s').
  { intros s s' r _ Hp Hc. unfold P in Hp. unfold P, phase.
    destruct Hp as [HA | [(h & Hh & HB) | [HC | [(Hab & h & Hh & HD)
      | [(Hab & HE) | [(Hab & Hn1 & h & Hh & HF) | [(Hab & Hn1 & HG)
      | [Hacc | Hstuck]]]]]]]].
    - (* the first symbol is marked *)
      destruct (Hstep s s' r _ _ _ _ HA) as (sym & Hsym & Hnext);
        [rewrite HlenT by assumption; lia | lia | exact Hc |].
      change (Some a = Some sym) in Hsym. injection Hsym as <-.
      destruct Ha as [-> | ->]; eval_lookup Hnext; finish_step Hnext;
        right; left; exists 1%nat; (split; [lia|]);
        repeat split; try reflexivity; lia.
    - (* the first scan to the right *)
      destruct (Hstep s s' r _ _ _ _ HB) as (sym & Hsym & Hnext);
        [rewrite HlenT by assumption; lia | lia | exact Hc |].
      pose proof (list_insert_id _ _ _ Hsym) as Hid.
      destruct (decide (h <= S n)%nat) as [Hle | Hgt].
      + assert (Hsymv : sym = "0" \/ sym = "1").
        { destruct h as [|h]; [lia|].
          destruct (decide (h < n)%nat) as [Hlt | Hge].
          - rewrite cells_mid in Hsym by lia.
            rewrite Forall_lookup in Hw. exact (Hw _ _ Hsym).
          - assert (h = n) as -> by lia.
            rewrite (cells_last _ _ _ _ n Hn) in Hsym. congruence. }
        destruct Ha as [-> | ->], Hsymv as [-> | ->];
          eval_lookup Hnext; finish_step Hnext; rewrite Hid;
          right; left; exists (S h); (split; [lia|]);
          repeat split; try reflexivity; lia.
      + assert (h = S (S n)) as -> by lia.
        rewrite (cells_after _ _ _ _ n Hn), HB0 in Hsym.
        injection Hsym as <-. change blank with "_" in Hid.
        destruct Ha as [-> | ->];
          eval_lookup Hnext; finish_step Hnext; rewrite Hid;
          right; right; left;
          repeat split; try reflexivity; lia.
    - (* the last symbol is compared with the first *)
      destruct (Hstep s s' r _ _ _ _ HC) as (sym & Hsym & Hnext);
        [rewrite HlenT by assumption; lia | lia | exact Hc |].
      rewrite (cells_last _ _ _ _ n Hn) in Hsym. injection Hsym as <-.
      destruct HC as (_ & HCst & _ & _ & HCk).
      destruct Ha as [-> | ->], Hb as [-> | ->]; eval_lookup Hnext;
        first
          [ finish_step Hnext; rewrite (cells_set_last _ _ _ _ _ n Hn);
            do 3 right; left; (split; [reflexivity|]);
            exists n; (split; [lia|]);
            repeat split; try reflexivity; lia
          | subst s'; do 8 right; cbn [halt halted current_state steps];
            rewrite HCst, HCk;
            repeat split; try reflexivity; try discriminate; lia ].
    - (* back to the left end *)
      destruct (Hstep s s' r _ _ _ _ HD) as (sym & Hsym & Hnext);
        [rewrite HlenT by assumption; lia | lia | exact Hc |].
      pose proof (list_insert_id _ _ _ Hsym) as Hid.
      do 3 right.
      destruct h as [|h].
      + change (Some "X" = Some sym) in Hsym. injection Hsym as <-.
        eval_lookup Hnext; finish_step Hnext; rewrite Hid.
        right; left. repeat split; try assumption; try reflexivity; lia.
      + rewrite cells_mid in Hsym by lia.
        assert (Hsymv : sym = "0" \/ sym = "1").
        { rewrite Forall_lookup in Hw. exact (Hw _ _ Hsym). }
        destruct Hsymv as [-> | ->];
          eval_lookup Hnext; finish_step Hnext; rewrite Hid;
          left; (split; [assumption|]); exists h; (split; [lia|]);
          repeat split; try reflexivity; lia.
    - (* the second symbol is marked, or there is none *)
      destruct (Hstep s s' r _ _ _ _ HE) as (sym & Hsym & Hnext);
        [rewrite HlenT by assumption; lia | lia | exact Hc |].
      do 5 right.
      destruct (decide (n = 0)%nat) as [Hn0 | Hn1].
      + rewrite Hn0 in Hn. apply nil_length_inv in Hn. rewrite Hn in Hsym.
        change (Some "X" = Some sym) in Hsym. injection Hsym as <-.
        eval_lookup Hnext; finish_step Hnext.
        do 2 right; left. repeat split; assumption.
      + rewrite (cells_mid _ _ _ _ 0) in Hsym by lia.
        assert (Hsymv : sym = "0" \/ sym = "1").
        { rewrite Forall_lookup in Hw. exact (Hw _ _ Hsym). }
        assert (Hw0 : w0 = sym) by (unfold w0; rewrite Hsym; reflexivity).
        rewrite Hw0.
        destruct Hsymv as [-> | ->];
          eval_lookup Hnext; finish_step Hnext;
          rewrite cells_set_second by lia;
          left; (split; [assumption|]); (split; [lia|]);
          exists 2%nat; (split; [lia|]);
          repeat split; try reflexivity; lia.
    - (* the second scan to the right *)
      destruct (Hstep s s' r _ _ _ _ HF) as (sym & Hsym & Hnext);
        [rewrite HlenT by (rewrite length_insert; assumption); lia
        | lia | exact Hc |].
      pose proof (list_insert_id _ _ _ Hsym) as Hid.
      assert (Hw0 : w0 = "0" \/ w0 = "1").
      { destruct (lookup_lt_is_Some_2 W 0%nat) as [c Hc0]; [lia|].
        unfold w0. rewrite Hc0. rewrite Forall_lookup in Hw.
        exact (Hw _ _ Hc0). }
      do 5 right.
      destruct (decide (h <= S n)%nat) as [Hle | Hgt].
      + assert (Hsymv : sym = "0" \/ sym = "1" \/ sym = "X").
        { destruct h as [|h]; [lia|].
          destruct (decide (h < n)%nat) as [Hlt | Hge].
          - rewrite cells_mid in Hsym by (rewrite length_insert; lia).
            rewrite list_lookup_insert_ne in Hsym by lia.
            rewrite Forall_lookup in Hw.
            destruct (Hw _ _ Hsym); auto.
          - assert (h = n) as -> by lia.
            rewrite (cells_last _ _ _ _ n) in Hsym
              by (rewrite length_insert; assumption).
            injection Hsym as <-. auto. }
        destruct Hw0 as [-> | ->], Hsymv as [-> | [-> | ->]];
          eval_lookup Hnext; finish_step Hnext; rewrite Hid;
          left; (split; [assumption|]); (split; [assumption|]);
          exists (S h); (split; [lia|]);
          repeat split; try reflexivity; lia.
      + assert (h = S (S n)) as -> by lia.
        rewrite (cells_after _ _ _ _ n) in Hsym
          by (rewrite length_insert; assumption).
        rewrite HB0 in Hsym. injection Hsym as <-.
        change blank with "_" in Hid.
        destruct Hw0 as [-> | ->];
          eval_lookup Hnext; finish_step Hnext; rewrite Hid;
          right; left; (split; [assumption|]); (split; [assumption|]);
          repeat split; try reflexivity; lia.
    - (* the mark at the right end stops the machine *)
      destruct (Hstep s s' r _ _ _ _ HG) as (sym & Hsym & Hnext);
        [rewrite HlenT by (rewrite length_insert; assumption); lia
        | lia | exact Hc |].
      rewrite (cells_last _ _ _ _ n) in Hsym
        by (rewrite length_insert; assumption).
      injection Hsym as <-.
      assert (Hw0 : w0 = "0" \/ w0 = "1").
      { destruct (lookup_lt_is_Some_2 W 0%nat) as [c Hc0]; [lia|].
        unfold w0. rewrite Hc0. rewrite Forall_lookup in Hw.
        exact (Hw _ _ Hc0). }
      do 7 right.
      destruct Hw0 as [-> | ->];
        eval_lookup Hnext; finish_step Hnext;
        left; repeat split; assumption.
    - (* accepted: nothing moves any more *)
      do 7 right. left. destruct Hacc as (Hh & Hab & Hst).
      inversion Hc; subst; cbn [halt halted current_state];
        try congruence; auto.
    - (* stuck: nothing moves any more *)
      do 8 right. destruct Hstuck as (Hh & Hab & Hst & Hk).
      inversion Hc; subst; cbn [halt halted current_state steps];
        try congruence; auto. }
  destruct (run_spec m P HP 1000 (reset m (a +:+ w +:+ b)) [])
    as (s0 & s & cont & msg & log0 & Hrun & _ & _ & _ & _ & Hh & _ & Hs).
  { apply reset_window. }
  { left. unfold phase, reset. cbn [halted current_state head tape steps].
    repeat split.
    rewrite (py_list_app a _ Hcwb), (py_list_app w b Hcb), <- HW.
    destruct Ha as [-> | ->], Hb as [-> | ->];
      cbn [py_list app]; rewrite <- app_assoc; reflexivity. }
  { reflexivity. }
  { simpl. lia. }
  exists s, ([] ++ log0 ++ [msg]). split; [exact Hrun|]. split; [exact Hh|].
  unfold P, phase in Hs.
  destruct Hs as [HA | [(h & _ & HB) | [HC | [(_ & h & _ & HD)
    | [(_ & HE) | [(_ & _ & h & _ & HF) | [(_ & _ & HG)
    | [(_ & Hab & Hst) | (_ & Hab & Hst & Hk)]]]]]]]];
    try (destruct HA as (Hf & _); congruence);
    try (destruct HB as (Hf & _); congruence);
    try (destruct HC as (Hf & _); congruence);
    try (destruct HD as (Hf & _); congruence);
    try (destruct HE as (Hf & _); congruence);
    try (destruct HF as (Hf & _); congruence);
    try (destruct HG as (Hf & _); congruence).
  - rewrite bool_decide_eq_true_2 by assumption.
    unfold final_verdict, is_accepted. rewrite Hst. reflexivity.
  - rewrite bool_decide_eq_false_2 by assumption.
    unfold final_verdict, is_accepted, is_rejected. rewrite Hst.
    rewrite (bool_decide_eq_false_2 (max_steps m <= steps s))
      by (simpl; lia).
    destruct Ha as [-> | ->]; reflexivity.
Qed.

Lemma palindrome_checker_witness :
  exists s log,
    run Atc9.step 1001 binary_palindrome_checker
        (reset binary_palindrome_checker "0100") [] = Some (Ok (s, log))
    /\ halted s = true
    /\ final_verdict binary_palindrome_checker s = Accepted.
Proof.
  apply (palindrome_checker_compares_the_ends "0" "0" "10").
  - auto.
  - auto.
  - cbn [py_list]. repeat (apply Forall_cons_2; [auto|]). apply Forall_nil_2.
  - simpl. lia.
Defined.

(** ** The driver loop always ends *)

Lemma transition_phase_counts (m : machine) (s s' : run_state) (msg : message) :
  transition_phase m s = Ok (s', (true, msg)) -> steps s' = steps s + 1.
Proof.
  unfold transition_phase.
  destruct (py_get _ _) as [sym|]; [|discriminate].
  destruct (transitions m !! _) as [[[next write] dir]|]; [|discriminate].
  destruct (py_set _ _ _); [|discriminate]. intros [= <- _]. reflexivity.
Qed.

Lemma step_continues (step : stepper) (m : machine) (s s' : run_state)
    (msg : message) :
  step = Atc6.step \/ step = Atc9.step ->
  step m s = Ok (s', (true, msg)) ->
  steps s < max_steps m /\ steps s' = steps s + 1.
Proof.
  intros [-> | ->]; unfold Atc6.step, Atc9.step, guarded;
    (case_bool_decide; [discriminate|]);
    (destruct (halted s); [discriminate|]);
    intros Hphase%transition_phase_counts; (split; [lia|]).
  - exact Hphase.
  - destruct (extend_tape_frame s) as (_ & <- & _). exact Hphase.
Qed.

Lemma run_ends (step : stepper) (m : machine) (n : nat) :
  step = Atc6.step \/ step = Atc9.step ->
  forall s log fuel,
    max_steps m - steps s <= Z.of_nat n ->
    (n < fuel)%nat ->
    exists outcome, run step fuel m s log = Some outcome.
Proof.
  intros Hstep. induction n as [|n IH]; intros s log fuel Hn Hfuel;
    (destruct fuel as [|fuel]; [lia|]); rewrite run_unfold;
    (destruct (halted s); [eauto|]);
    (destruct (step m s) as [[s1 [cont msg]]|] eqn:Hcall; [|eauto]);
    (destruct cont; [|eauto]);
    destruct (step_continues step m s s1 msg Hstep Hcall) as (Hlt & Hs1);
    (destruct (halted s1); [eauto|]); cbn [andb negb].
  - lia.
  - apply IH; lia.
Qed.

(** X19.  The driver loop ends on either engine, from any state: within
    [max_steps - steps + 1] calls of [step()] it has either returned a
    final state or stopped on an [IndexError]; it cannot go on for ever,
    whatever the transition table is. *)
Theorem driver_loop_terminates (step : stepper) (m : machine)
    (s : run_state) (log : list message) (fuel : nat) :
  step = Atc6.step \/ step = Atc9.step ->
  (Z.to_nat (max_steps m - steps s) < fuel)%nat ->
  exists outcome, run step fuel m s log = Some outcome.
Proof.
  intros Hstep Hfuel.
  apply (run_ends step m (Z.to_nat (max_steps m - steps s)) Hstep);
    [lia | exact Hfuel].
Qed.

Lemma driver_loop_terminates_witness :
  exists outcome,
    run Atc6.step 1001 (halting_problem 1000)
        (reset (halting_problem 1000) "0110") [] = Some outcome.
Proof.
  apply (driver_loop_terminates Atc6.step (halting_problem 1000)
           (reset (halting_problem 1000) "0110") [] 1001).
  - left. reflexivity.
  - simpl. lia.
Defined.
